(** * Guilt Meter: progress calculator and presentation mapper

    A shallow embedding of the presentation mapper of the Guilt Meter
    front end ([config/messages]: [motivationalMessages],
    [getMotivationalMessage], [getGuiltMeterColor]) and of the progress
    calculator ([lib/progress]: [calculateProgress]), with the properties
    the specification states about them; then the state of the application
    ([App]), the completion mark of the sidebar ([ProjectList]), the
    session ([AuthContext]) and the login form ([Login]). *)

From Stdlib Require Import ZArith QArith Qround List Ascii String Bool Lia Lqa.
Import ListNotations.

Local Open Scope Z_scope.

(** ** JavaScript numbers, as far as comparison sees them

    A TypeScript [number] is an IEEE double: a finite value (every finite
    double is a rational), one of the two infinities, or NaN.  The functions
    below only compare numbers with [<=] and [>=], which IEEE defines
    exactly: a comparison with NaN on either side is false. *)

Inductive number : Type :=
  | Finite (q : Q)
  | PosInfinity
  | NegInfinity
  | NaN.

(** The number written as the integer literal [z]. *)
Definition num (z : Z) : number := Finite (inject_Z z).

(** [a <= b] of JavaScript. *)
Definition num_le (a b : number) : bool :=
  match a, b with
  | NaN, _ => false
  | _, NaN => false
  | NegInfinity, _ => true
  | _, PosInfinity => true
  | Finite x, Finite y => Qle_bool x y
  | PosInfinity, _ => false
  | Finite _, NegInfinity => false
  end.

(** [a >= b] of JavaScript. *)
Definition num_ge (a b : number) : bool := num_le b a.

(** ** Arrays and results

    [a[i]] on a JavaScript array is [undefined] outside [0 .. length-1];
    the non-null assertion [!] of TypeScript has no run-time effect. *)

Definition array_get {A : Type} (a : list A) (i : Z) : option A :=
  if i <? 0 then None else nth_error a (Z.to_nat i).

(** What a call of a string-valued function can do at run time. *)
Inductive outcome : Type :=
  | Returns (s : string)
  | ReturnsUndefined
  | ThrowsTypeError.

(** ** The message table *)

Record MotivationalMessage : Type := mkMotivationalMessage {
  minGuilt : number;
  maxGuilt : number;
  messages : list string
}.

Local Open Scope string_scope.

Definition motivationalMessages : list MotivationalMessage :=
  [ {| minGuilt := num 0; maxGuilt := num 10;
       messages :=
         [ "🎉 You did it! Guilt-free and fabulous!";
           "✨ Amazing work! You've lifted all the weight!";
           "🏆 Project complete! Go celebrate!";
           "💪 Total victory! Time to rest and enjoy!" ] |};
    {| minGuilt := num 10; maxGuilt := num 25;
       messages :=
         [ "🌟 Nearly there! Just a few tasks left!";
           "📈 Incredible momentum! Keep it going!";
           "🚀 You're so close to the finish line!";
           "✅ Fantastic progress! Almost home!" ] |};
    {| minGuilt := num 25; maxGuilt := num 50;
       messages :=
         [ "💡 Great halfway point! You're crushing it!";
           "🎯 Solid progress! Keep the pace!";
           "🌱 You're building great momentum!";
           "⚡ Half the battle is done – keep going!" ] |};
    {| minGuilt := num 50; maxGuilt := num 75;
       messages :=
         [ "📍 You've got the hard work started – nice!";
           "🌊 Getting there, one task at a time!";
           "🎪 Progress is happening! Stay focused!";
           "💼 Good start! Let's build on this!" ] |};
    {| minGuilt := num 75; maxGuilt := num 90;
       messages :=
         [ "👋 You've begun your journey – that's the first step!";
           "🔧 Every task matters. You've got this!";
           "🌅 Just getting warmed up. One step at a time!";
           "📚 Starting strong. Keep moving forward!" ] |};
    {| minGuilt := num 90; maxGuilt := num 100;
       messages :=
         [ "💭 Take a breath. You don't have to do it all today.";
           "🤝 This is a marathon, not a sprint. Begin when ready!";
           "🌿 Be gentle with yourself. Small steps count!";
           "📝 Ready to get started? Pick one task!" ] |} ].

(** ** getMotivationalMessage

    [Math.random()] is an input here: [random] is the value it returned,
    a number with [0 <= random < 1].  Every list of the table has four
    entries, and a double times 4 is computed without rounding, so the
    product below is the rational product. *)

(** The callback given to [find]. *)
Definition inRange (guiltPercentage : number) (msg : MotivationalMessage) : bool :=
  num_ge guiltPercentage (minGuilt msg) && num_le guiltPercentage (maxGuilt msg).

Definition getMotivationalMessage (guiltPercentage : number) (random : Q) : outcome :=
  match find (inRange guiltPercentage) motivationalMessages with
  | None =>
      match array_get motivationalMessages
                      (Z.of_nat (List.length motivationalMessages) - 1) with
      | None => ThrowsTypeError
      | Some last =>
          match array_get (messages last) 0 with
          | None => ReturnsUndefined
          | Some s => Returns s
          end
      end
  | Some range =>
      let randomIndex :=
        Qfloor (random * inject_Z (Z.of_nat (List.length (messages range)))) in
      match array_get (messages range) randomIndex with
      | None => ReturnsUndefined
      | Some s => Returns s
      end
  end.

(** ** getGuiltMeterColor *)

Definition getGuiltMeterColor (guiltPercentage : number) : string :=
  if num_ge guiltPercentage (num 100) then "#a166d3"
  else if num_le guiltPercentage (num 10) then "#d9d9d9"
  else if num_le guiltPercentage (num 25) then "#98fb98"
  else if num_le guiltPercentage (num 50) then "#87ceeb"
  else if num_le guiltPercentage (num 75) then "#ffd700"
  else "#ff69b4".

(** The six colour constants, by the names the source comments give them. *)
Definition boldBlend : string := "#a166d3".
Definition softSilver : string := "#d9d9d9".
Definition pastelMint : string := "#98fb98".
Definition skyBlue : string := "#87ceeb".
Definition warmGold : string := "#ffd700".
Definition softPink : string := "#ff69b4".

(** *** The colour bands as the specification lists them

    The specification describes the colour selection as a table of six
    bands, [<= 10], [<= 25], [<= 50], [<= 75], [< 100], [>= 100], tried in
    ascending order, the first match winning.  [specBandColor] follows
    those words; it is compared with [getGuiltMeterColor] below. *)

(** [a < b] of JavaScript. *)
Definition num_lt (a b : number) : bool :=
  match a, b with
  | NaN, _ => false
  | _, NaN => false
  | _, _ => negb (num_le b a)
  end.

Definition specColorBands : list ((number -> bool) * string) :=
  [ (fun g => num_le g (num 10), softSilver);
    (fun g => num_le g (num 25), pastelMint);
    (fun g => num_le g (num 50), skyBlue);
    (fun g => num_le g (num 75), warmGold);
    (fun g => num_lt g (num 100), softPink);
    (fun g => num_ge g (num 100), boldBlend) ].

Definition specBandColor (g : number) : option string :=
  option_map snd (find (fun band => fst band g) specColorBands).

(** ** The progress calculator *)

Local Open Scope Q_scope.

Record Task : Type := mkTask {
  id : string;
  title : string;
  weight : Q;
  completed : bool
}.

Record ProgressState : Type := mkProgressState {
  totalTasks : Z;
  completedTasks : Z;
  progressPercentage : Z;
  guiltPercentage : Z
}.

(** [Math.round]: the nearest integer, a tie going up. *)
Definition Math_round (x : Q) : Z := Qfloor (x + (1 # 2)).

(** [tasks.reduce((sum, t) => sum + t.weight, 0)]. *)
Definition sumWeight (tasks : list Task) : Q :=
  fold_left (fun sum t => sum + weight t) tasks 0.

(** [Math.max(0, Math.min(100, p))]. *)
Definition clampPercentage (p : Z) : Z := Z.max 0 (Z.min 100 p).

(** Modelled from the spec: [lib/progress], the module of
    [calculateProgress], is not among the sources; only its callers are.
    The definition follows the specification: the two counts and the
    weighted percentage
    [round(100 * sum(weight of completed tasks) / sum(weight of all tasks))]
    with its guard (0 when the total weight or the task count is zero) of
    section 4.1; the percentage clamped to [0, 100], as the invariant of
    section 3 says and as section 8 states for all task lists; and
    [guiltPercentage = 100 - progressPercentage].  The arithmetic is that
    of the formula, on rationals. *)
Definition calculateProgress (tasks : list Task) : ProgressState :=
  let total := Z.of_nat (List.length tasks) in
  let done := filter completed tasks in
  let totalWeight := sumWeight tasks in
  let completedWeight := sumWeight done in
  let progress :=
    if (total =? 0)%Z || Qeq_bool totalWeight 0 then 0%Z
    else clampPercentage (Math_round (100 * completedWeight / totalWeight)) in
  {| totalTasks := total;
     completedTasks := Z.of_nat (List.length done);
     progressPercentage := progress;
     guiltPercentage := (100 - progress)%Z |}.

(** The sum of a list of rationals, by recursion on the list. *)
Fixpoint Qsum (l : list Q) : Q :=
  match l with
  | [] => 0
  | x :: l' => x + Qsum l'
  end.

Definition task (w : Q) (c : bool) : Task :=
  {| id := ""; title := ""; weight := w; completed := c |}.

(** ** Vocabulary of the statements *)

(** What [Math.random()] can return. *)
Definition validRandom (r : Q) : Prop := 0 <= r /\ r < 1.

(** Every string of the table, in declaration order. *)
Definition allMessages : list string := flat_map messages motivationalMessages.

(** The strings of the [i]-th range of the table. *)
Definition messagesOfRange (i : nat) : list string :=
  match nth_error motivationalMessages i with
  | Some range => messages range
  | None => []
  end.

Definition guiltMeterColors : list string :=
  [boldBlend; softSilver; pastelMint; skyBlue; warmGold; softPink].

(** The values that close one range and open the next, each with the
    index of the earlier of its two ranges. *)
Definition rangeEdges : list (Z * nat) :=
  [(10%Z, 0%nat); (25%Z, 1%nat); (50%Z, 2%nat); (75%Z, 3%nat); (90%Z, 4%nat)].



(** * The rest of the front end

    The state the components keep and what their handlers do to it.  A
    handler runs to its end on the state it was created with; what the
    network answered is an input. *)

(** ** Network answers and exceptions *)

(** What a [catch] clause can receive: an [Error] instance with its
    message, or some other value. *)
Inductive Thrown : Type :=
  | ErrorInstance (message : string)
  | NotAnError.

(** The JSON body of a response without [ok], as far as [error.detail]
    sees it.  On [null] the property access throws a [TypeError], whose
    message is the engine's; on any other JSON value it gives [detail],
    which is a string ([Some d]) or anything else ([None]: no such
    property, or a value that is not a string). *)
Inductive RefusalBody : Type :=
  | NullBody (typeErrorMessage : string)
  | JsonBody (detail : option string).

(** What [await fetch(...)] followed by [await response.json()] gives: a
    response with [ok] set and its body, a response without [ok] and its
    body, or an exception. *)
Inductive FetchResult (A : Type) : Type :=
  | ResponseOk (body : A)
  | ResponseNotOk (body : RefusalBody)
  | Rejected (e : Thrown).

Arguments ResponseOk {A} body.
Arguments ResponseNotOk {A} body.
Arguments Rejected {A} e.

(** [err instanceof Error ? err.message : fallback]. *)
Definition messageOf (fallback : string) (e : Thrown) : string :=
  match e with
  | ErrorInstance m => m
  | NotAnError => fallback
  end.

(** What a handler's [catch] clause shows for an answer that is not ok,
    its [try] block reading [if (!response.ok) throw new Error(failure)]:
    [err instanceof Error ? err.message : fallback]. *)
Definition catchMessage {A : Type} (failure fallback : string)
    (r : FetchResult A) : string :=
  match r with
  | Rejected e => messageOf fallback e
  | _ => messageOf fallback (ErrorInstance failure)
  end.

(** ** App: projects, selection and the task handlers *)

Record Project : Type := mkProject {
  project_id : string;
  project_name : string;
  project_reward : option string;
  project_tasks : list Task
}.

(** [{ ...p, tasks: ts }]. *)
Definition withTasks (p : Project) (ts : list Task) : Project :=
  {| project_id := project_id p;
     project_name := project_name p;
     project_reward := project_reward p;
     project_tasks := ts |}.

Record AppState : Type := mkAppState {
  projects : list Project;
  currentProjectId : option string;
  loading : bool;
  error : option string
}.

Definition setProjects (s : AppState) (ps : list Project) : AppState :=
  {| projects := ps; currentProjectId := currentProjectId s;
     loading := loading s; error := error s |}.

Definition setCurrentProjectId (s : AppState) (c : option string) : AppState :=
  {| projects := projects s; currentProjectId := c;
     loading := loading s; error := error s |}.

Definition setLoading (s : AppState) (b : bool) : AppState :=
  {| projects := projects s; currentProjectId := currentProjectId s;
     loading := b; error := error s |}.

Definition setError (s : AppState) (e : option string) : AppState :=
  {| projects := projects s; currentProjectId := currentProjectId s;
     loading := loading s; error := e |}.

(** [x === c] for a string [x] and a [string | null] [c]. *)
Definition isId (c : option string) (x : string) : bool :=
  match c with
  | Some y => String.eqb x y
  | None => false
  end.

(** [projects.find((p) => p.id === currentProjectId)]. *)
Definition currentProject (s : AppState) : option Project :=
  find (fun p => isId (currentProjectId s) (project_id p)) (projects s).

Definition loadProjects (s : AppState) (r : FetchResult (list Project)) : AppState :=
  let s1 := setLoading s true in
  let s2 :=
    match r with
    | ResponseOk data =>
        let s' := setProjects s1 data in
        let s'' :=
          match data with
          | first :: _ => setCurrentProjectId s' (Some (project_id first))
          | [] => s'
          end in
        setError s'' None
    | _ =>
        setError s1
          (Some (catchMessage "Failed to load projects" "An error occurred" r))
    end in
  setLoading s2 false.

Definition handleAddProject (s : AppState) (r : FetchResult Project) : AppState :=
  match r with
  | ResponseOk newProject =>
      setCurrentProjectId
        (setProjects s (projects s ++ [newProject])%list)
        (Some (project_id newProject))
  | _ =>
      setError s
        (Some (catchMessage "Failed to create project" "Failed to create project" r))
  end.

Definition handleSelectProject (s : AppState) (projectId : string) : AppState :=
  setCurrentProjectId s (Some projectId).

Definition handleDeleteProject (s : AppState) (projectId : string)
    (r : FetchResult unit) : AppState :=
  match r with
  | ResponseOk _ =>
      let updatedProjects :=
        filter (fun p => negb (String.eqb (project_id p) projectId)) (projects s) in
      let s' := setProjects s updatedProjects in
      if isId (currentProjectId s) projectId then
        setCurrentProjectId s'
          match updatedProjects with
          | first :: _ => Some (project_id first)
          | [] => None
          end
      else s'
  | _ =>
      setError s
        (Some (catchMessage "Failed to delete project" "Failed to delete project" r))
  end.

(** [projects.map((p) => p.id === currentProject.id ? { ...p, tasks: f(p.tasks) } : p)],
    the update the three task handlers share. *)
Definition updateTasksOf (cp : Project) (f : list Task -> list Task)
    (ps : list Project) : list Project :=
  map (fun p =>
         if String.eqb (project_id p) (project_id cp)
         then withTasks p (f (project_tasks p))
         else p) ps.

Definition handleAddTask (s : AppState) (r : FetchResult Task) : AppState :=
  match currentProject s with
  | None => s
  | Some cp =>
      match r with
      | ResponseOk newTask =>
          setProjects s
            (updateTasksOf cp (fun ts => (ts ++ [newTask])%list) (projects s))
      | _ =>
          setError s
            (Some (catchMessage "Failed to create task" "Failed to create task" r))
      end
  end.

Definition handleToggleTask (s : AppState) (taskId : string)
    (r : FetchResult Task) : AppState :=
  match currentProject s with
  | None => s
  | Some cp =>
      match r with
      | ResponseOk updatedTask =>
          setProjects s
            (updateTasksOf cp
               (map (fun t => if String.eqb (id t) taskId then updatedTask else t))
               (projects s))
      | _ =>
          setError s
            (Some (catchMessage "Failed to toggle task" "Failed to toggle task" r))
      end
  end.

Definition handleRemoveTask (s : AppState) (taskId : string)
    (r : FetchResult unit) : AppState :=
  match currentProject s with
  | None => s
  | Some cp =>
      match r with
      | ResponseOk _ =>
          setProjects s
            (updateTasksOf cp
               (filter (fun t => negb (String.eqb (id t) taskId)))
               (projects s))
      | _ =>
          setError s
            (Some (catchMessage "Failed to delete task" "Failed to delete task" r))
      end
  end.

(** The three memoised values of the render. *)
Definition progressState (s : AppState) : option ProgressState :=
  match currentProject s with
  | Some cp => Some (calculateProgress (project_tasks cp))
  | None => None
  end.

Definition motivationalMessage (s : AppState) (random : Q) : outcome :=
  match progressState s with
  | Some ps => getMotivationalMessage (num (guiltPercentage ps)) random
  | None => Returns ""
  end.

Definition guiltMeterColor (s : AppState) : string :=
  match progressState s with
  | Some ps => getGuiltMeterColor (num (guiltPercentage ps))
  | None => "#e5e7eb"
  end.

(** ** ProjectList: the completion mark *)

Definition isComplete (project : Project) : bool :=
  let progress := calculateProgress (project_tasks project) in
  (progressPercentage progress =? 100)%Z
  && (0 <? List.length (project_tasks project))%nat.

(** ** AuthContext: the API address *)

(** [s.replace(/\/$/, '')]: the pattern matches a slash that ends the
    string, so a final slash, if there is one, is removed. *)
Fixpoint replaceTrailingSlash (s : string) : string :=
  match s with
  | EmptyString => EmptyString
  | String c EmptyString => if Ascii.eqb c "/"%char then EmptyString else s
  | String c rest => String c (replaceTrailingSlash rest)
  end.

(** [(import.meta.env.VITE_API_URL || '').replace(/\/$/, '')]; the variable
    may be undefined. *)
Definition apiBase (VITE_API_URL : option string) : string :=
  replaceTrailingSlash
    match VITE_API_URL with
    | Some u => if String.eqb u "" then "" else u
    | None => ""
    end.

Definition apiUrl (VITE_API_URL : option string) (path : string) : string :=
  apiBase VITE_API_URL ++ path.

(** ** AuthContext: the session *)

Record User : Type := mkUser {
  user_id : string;
  user_email : string;
  user_name : string;
  user_created_at : string
}.

(** The body of an ok answer to a login or a signup, as the code reads
    it: [data.access_token] and [data.user]. *)
Record AuthData : Type := mkAuthData {
  access_token : string;
  data_user : User
}.

(** The state of the provider, and the [token] item of [localStorage]. *)
Record AuthState : Type := mkAuthState {
  user : option User;
  token : option string;
  isLoading : bool;
  storedToken : option string
}.

(** The state the provider starts in. *)
Definition initialAuth (stored : option string) : AuthState :=
  {| user := None; token := stored; isLoading := true; storedToken := stored |}.

(** [!!user]. *)
Definition isAuthenticated (a : AuthState) : bool :=
  match user a with
  | Some _ => true
  | None => false
  end.

(** [setToken(null); localStorage.removeItem('token')]. *)
Definition clearToken (a : AuthState) : AuthState :=
  {| user := user a; token := None; isLoading := isLoading a; storedToken := None |}.

Definition loadUser (a : AuthState) (r : FetchResult User) : AuthState :=
  let a' :=
    match storedToken a with
    | Some savedToken =>
        if String.eqb savedToken "" then a
        else
          match r with
          | ResponseOk data =>
              {| user := Some data; token := Some savedToken;
                 isLoading := isLoading a; storedToken := storedToken a |}
          | _ => clearToken a
          end
    | None => a
    end in
  {| user := user a'; token := token a'; isLoading := false;
     storedToken := storedToken a' |}.

(** [login] and [signup] differ in the address they post to and in the
    message of a refusal; [None] is a promise that resolved, [Some e] one
    that rejected with [e].  On a refusal the body is read first:
    [typeof error.detail === 'string' ? error.detail : refusal] throws the
    engine's [TypeError] on a [null] body, before [new Error(message)] is
    reached. *)
Definition authenticate (refusal : string) (a : AuthState)
    (r : FetchResult AuthData) : AuthState * option Thrown :=
  match r with
  | ResponseOk data =>
      ({| user := Some (data_user data); token := Some (access_token data);
          isLoading := isLoading a; storedToken := Some (access_token data) |},
       None)
  | ResponseNotOk (NullBody typeErrorMessage) =>
      (a, Some (ErrorInstance typeErrorMessage))
  | ResponseNotOk (JsonBody detail) =>
      (a, Some (ErrorInstance match detail with
                              | Some d => d
                              | None => refusal
                              end))
  | Rejected e => (a, Some e)
  end.

Definition login : AuthState -> FetchResult AuthData -> AuthState * option Thrown :=
  authenticate "Login failed".

Definition signup : AuthState -> FetchResult AuthData -> AuthState * option Thrown :=
  authenticate "Signup failed".

Definition logout (a : AuthState) : AuthState :=
  {| user := None; token := None; isLoading := isLoading a; storedToken := None |}.

(** ** Login: the form *)

Record LoginState : Type := mkLoginState {
  isSignup : bool;
  login_error : string;
  login_loading : bool
}.

Definition handleSubmit (l : LoginState) (a : AuthState)
    (r : FetchResult AuthData) : LoginState * AuthState :=
  let (a', rejection) := if isSignup l then signup a r else login a r in
  ({| isSignup := isSignup l;
      login_error :=
        match rejection with
        | None => ""
        | Some e => messageOf "An error occurred" e
        end;
      login_loading := false |},
   a').

(** The text of the submit button. *)
Definition submitLabel (l : LoginState) : string :=
  if login_loading l then "Loading..."
  else if isSignup l then "Sign Up" else "Log In".

(** The states that make up a session: whether the token of the provider
    is the one in [localStorage]. *)
Definition tokenStored (a : AuthState) : Prop := token a = storedToken a.

(** The selection names a project of the list, or there is none. *)
Definition selectionValid (s : AppState) : Prop :=
  match currentProjectId s with
  | Some c => exists p, In p (projects s) /\ project_id p = c
  | None => True
  end.

(** An answer other than an ok response. *)
Definition notOk {A : Type} (r : FetchResult A) : Prop :=
  match r with
  | ResponseOk _ => False
  | _ => True
  end.

(** Two states with the same projects and the same selection. *)
Definition sameData (s s' : AppState) : Prop :=
  projects s' = projects s /\ currentProjectId s' = currentProjectId s.

(** The identifiers of a list of projects, in order. *)
Definition projectIds (ps : list Project) : list string := map project_id ps.

(** A number that is not in [0, 100]. *)
Definition outOfScale (g : number) : Prop :=
  match g with
  | Finite q => q < 0 \/ 100 < q
  | _ => True
  end.

(** The range [find] selects for a guilt percentage. *)
Definition selectedRange (g : number) : option MotivationalMessage :=
  find (inRange g) motivationalMessages.

(** * Properties *)

(** ** Arrays, [find] and the random index *)

Section Arrays.
Context {A : Type}.

Lemma array_get_in (a : list A) (i : Z) :
  (0 <= i < Z.of_nat (List.length a))%Z ->
  exists x, array_get a i = Some x /\ In x a.
Proof.
  intros [Hlo Hhi]. unfold array_get.
  destruct (i <? 0)%Z eqn:E; [apply Z.ltb_lt in E; lia|].
  destruct (nth_error a (Z.to_nat i)) as [x|] eqn:N.
  - exists x. split; [reflexivity | eapply nth_error_In; eassumption].
  - apply nth_error_None in N. lia.
Qed.

Variable p : A -> bool.

(** [find] returns the element at the first index where [p] holds. *)
Lemma find_first_match (l : list A) :
  forall i x,
    nth_error l i = Some x ->
    p x = true ->
    (forall j y, (j < i)%nat -> nth_error l j = Some y -> p y = false) ->
    find p l = Some x.
Proof.
  induction l as [|a l IH]; intros i x Hi Hx Hbefore.
  - destruct i; discriminate.
  - destruct i as [|i]; simpl in *.
    + injection Hi as ->. now rewrite Hx.
    + rewrite (Hbefore 0%nat a) by (reflexivity || lia).
      apply (IH i); trivial.
      intros j y Hj Hy. apply (Hbefore (S j)); [lia | exact Hy].
Qed.

Lemma find_none_all (l : list A) :
  (forall x, In x l -> p x = false) -> find p l = None.
Proof.
  induction l as [|a l IH]; intros H; simpl; [reflexivity|].
  rewrite (H a) by now left.
  apply IH. intros x Hx. apply H. now right.
Qed.
End Arrays.

(** [Math.floor(Math.random() * n)] is an index of an array of [n > 0]
    elements. *)
Lemma random_index_bounds (r : Q) (n : nat) :
  validRandom r -> (0 < n)%nat ->
  (0 <= Qfloor (r * inject_Z (Z.of_nat n)) < Z.of_nat n)%Z.
Proof.
  intros [Hlo Hhi] Hn.
  assert (Hpos : 0 < inject_Z (Z.of_nat n)).
  { change 0 with (inject_Z 0). rewrite <- Zlt_Qlt. lia. }
  split.
  - change 0%Z with (Qfloor 0). apply Qfloor_resp_le. nra.
  - rewrite Zlt_Qlt.
    apply Qle_lt_trans with (r * inject_Z (Z.of_nat n)); [apply Qfloor_le | nra].
Qed.

Lemma random_pick (l : list string) (r : Q) :
  validRandom r -> l <> [] ->
  exists s,
    array_get l (Qfloor (r * inject_Z (Z.of_nat (List.length l)))) = Some s
    /\ In s l.
Proof.
  intros Hr Hl. apply array_get_in. apply random_index_bounds; trivial.
  destruct l; [congruence | simpl; lia].
Qed.

(** ** Comparisons of a finite number with an integer literal *)

Lemma num_le_finite (q : Q) (z : Z) :
  num_le (Finite q) (num z) = true <-> q <= inject_Z z.
Proof. apply Qle_bool_iff. Qed.

Lemma num_ge_finite (q : Q) (z : Z) :
  num_ge (Finite q) (num z) = true <-> inject_Z z <= q.
Proof. apply Qle_bool_iff. Qed.

Lemma inRange_finite (q : Q) (lo hi : Z) (l : list string) :
  inRange (Finite q) {| minGuilt := num lo; maxGuilt := num hi; messages := l |} = true
  <-> inject_Z lo <= q <= inject_Z hi.
Proof.
  unfold inRange. cbn [minGuilt maxGuilt].
  rewrite andb_true_iff, num_le_finite, num_ge_finite. reflexivity.
Qed.

(** ** The message table *)

Lemma table_four (range : MotivationalMessage) :
  In range motivationalMessages -> List.length (messages range) = 4%nat.
Proof.
  unfold motivationalMessages. intros H.
  repeat (destruct H as [<- | H]; [reflexivity|]). destruct H.
Qed.

Lemma table_nonempty (range : MotivationalMessage) :
  In range motivationalMessages -> messages range <> [].
Proof.
  intros H E. apply table_four in H. rewrite E in H. discriminate.
Qed.

(** ** The two branches of getMotivationalMessage *)

Lemma selected_message (g : number) (r : Q) (range : MotivationalMessage) :
  validRandom r ->
  find (inRange g) motivationalMessages = Some range ->
  exists s, getMotivationalMessage g r = Returns s /\ In s (messages range).
Proof.
  intros Hr Hfind. unfold getMotivationalMessage. rewrite Hfind. cbv zeta.
  assert (Hin : In range motivationalMessages) by (eapply find_some; eassumption).
  destruct (random_pick (messages range) r Hr (table_nonempty _ Hin)) as [s [Hs Hm]].
  exists s. rewrite Hs. split; [reflexivity | exact Hm].
Qed.

Lemma fallback_message (g : number) (r : Q) :
  find (inRange g) motivationalMessages = None ->
  getMotivationalMessage g r
  = Returns "💭 Take a breath. You don't have to do it all today.".
Proof.
  intros Hfind. unfold getMotivationalMessage. rewrite Hfind. reflexivity.
Qed.

(** Choose the [k]-th entry of a list written out in the goal, and prove
    the bounds that remain by linear arithmetic. *)
Tactic Notation "pick_range" integer(k) :=
  eexists; split;
  [ do k right; left; reflexivity
  | apply inRange_finite; unfold inject_Z; lra ].

(** Every value of [0, 100] lies in a range of the table. *)
Lemma ranges_cover (q : Q) :
  0 <= q <= 100 ->
  exists range, In range motivationalMessages /\ inRange (Finite q) range = true.
Proof.
  intros [Hlo Hhi]. unfold motivationalMessages.
  destruct (Qlt_le_dec q 10) as [H10|H10]; [pick_range 0|].
  destruct (Qlt_le_dec q 25) as [H25|H25]; [pick_range 1|].
  destruct (Qlt_le_dec q 50) as [H50|H50]; [pick_range 2|].
  destruct (Qlt_le_dec q 75) as [H75|H75]; [pick_range 3|].
  destruct (Qlt_le_dec q 90) as [H90|H90]; [pick_range 4|].
  pick_range 5.
Qed.

(** The strings of two different lists of the table differ. *)
Lemma not_in_by_eqb (s : string) (l : list string) :
  existsb (String.eqb s) l = false -> ~ In s l.
Proof.
  intros H Hin.
  assert (E : existsb (String.eqb s) l = true).
  { apply existsb_exists. exists s. split; [exact Hin | apply String.eqb_refl]. }
  congruence.
Qed.

Lemma adjacent_ranges_disjoint (i : nat) (s : string) :
  In s (messagesOfRange i) -> ~ In s (messagesOfRange (S i)).
Proof.
  do 6 (destruct i as [|i]; [
    intros H; repeat (destruct H as [<- | H]; [apply not_in_by_eqb; reflexivity|]);
    destruct H |]).
  unfold messagesOfRange at 1. simpl. destruct i; intros [].
Qed.

(** ** getMotivationalMessage: which range is selected *)

(** C6: for guiltPercentage = 0, whatever [Math.random()] returned,
    getMotivationalMessage returns one of the four strings of the 0-10
    range, the first entry of the table. *)
Theorem message_for_zero_guilt (r : Q) :
  validRandom r ->
  exists s,
    getMotivationalMessage (num 0) r = Returns s
    /\ In s (messagesOfRange 0)
    /\ In s [ "🎉 You did it! Guilt-free and fabulous!";
              "✨ Amazing work! You've lifted all the weight!";
              "🏆 Project complete! Go celebrate!";
              "💪 Total victory! Time to rest and enjoy!" ].
Proof.
  intros Hr.
  destruct (selected_message (num 0) r _ Hr eq_refl) as [s [Hs Hin]].
  exists s. repeat split; [exact Hs | exact Hin | exact Hin].
Qed.

Lemma message_for_zero_guilt_witness :
  validRandom (3 # 4)
  /\ exists s,
       getMotivationalMessage (num 0) (3 # 4) = Returns s
       /\ In s (messagesOfRange 0)
       /\ In s [ "🎉 You did it! Guilt-free and fabulous!";
                 "✨ Amazing work! You've lifted all the weight!";
                 "🏆 Project complete! Go celebrate!";
                 "💪 Total victory! Time to rest and enjoy!" ].
Proof.
  split; [unfold validRandom; lra|].
  apply (message_for_zero_guilt (3 # 4)). unfold validRandom; lra.
Defined.

(** C4: [find] takes the first range, in the order of the table, that
    contains guiltPercentage, and the returned string is one of that
    range's.  Each of the edges 10, 25, 50, 75, 90 lies in two adjacent
    ranges and gets a string of the earlier one; in particular 10 gets one
    of the four strings of the 0-10 range, none of the 10-25 range. *)
Theorem first_matching_range_wins :
  (forall (g : number) (r : Q) (i : nat) (range : MotivationalMessage),
      validRandom r ->
      nth_error motivationalMessages i = Some range ->
      inRange g range = true ->
      (forall j earlier, (j < i)%nat ->
         nth_error motivationalMessages j = Some earlier ->
         inRange g earlier = false) ->
      exists s, getMotivationalMessage g r = Returns s /\ In s (messages range))
  /\ (forall (e : Z) (i : nat),
        In (e, i) rangeEdges ->
        exists lo hi,
          nth_error motivationalMessages i = Some lo
          /\ nth_error motivationalMessages (S i) = Some hi
          /\ inRange (num e) lo = true
          /\ inRange (num e) hi = true
          /\ forall r, validRandom r ->
               exists s, getMotivationalMessage (num e) r = Returns s
                         /\ In s (messages lo) /\ ~ In s (messages hi))
  /\ (forall r, validRandom r ->
        exists s, getMotivationalMessage (num 10) r = Returns s
                  /\ In s (messagesOfRange 0) /\ ~ In s (messagesOfRange 1)).
Proof.
  split; [|split].
  - intros g r i range Hr Hi Hin Hbefore.
    apply selected_message; [exact Hr|].
    apply (find_first_match (inRange g) motivationalMessages i); assumption.
  - intros e i He. unfold rangeEdges in He.
    repeat (destruct He as [He | He];
      [ injection He as <- <-;
        match goal with
        | |- exists lo hi, nth_error _ ?k = _ /\ _ =>
            do 2 eexists; repeat (split; [reflexivity|]);
            intros r Hr;
            match goal with
            | |- context [getMotivationalMessage ?g _] =>
                destruct (selected_message g r _ Hr eq_refl) as [s [Hs Hm]]
            end;
            exists s; split; [exact Hs | split; [exact Hm |]];
            exact (adjacent_ranges_disjoint k s Hm)
        end
      | ]).
    destruct He.
  - intros r Hr.
    destruct (selected_message (num 10) r _ Hr eq_refl) as [s [Hs Hm]].
    exists s. repeat split; [exact Hs | exact Hm |].
    apply (adjacent_ranges_disjoint 0 s Hm).
Qed.

Lemma first_matching_range_wins_witness :
  validRandom (1 # 2)
  /\ (exists s,
        getMotivationalMessage (num 30) (1 # 2) = Returns s
        /\ In s (messagesOfRange 2))
  /\ (exists s,
        getMotivationalMessage (num 10) (1 # 2) = Returns s
        /\ In s (messagesOfRange 0) /\ ~ In s (messagesOfRange 1)).
Proof.
  assert (Hr : validRandom (1 # 2)) by (unfold validRandom; lra).
  split; [exact Hr | split].
  - refine (proj1 first_matching_range_wins (num 30) (1 # 2) 2%nat _ Hr eq_refl eq_refl _).
    intros j earlier Hj Hnth.
    destruct j as [|[|j]]; [| | lia]; injection Hnth as <-; reflexivity.
  - exact (proj2 (proj2 first_matching_range_wins) (1 # 2) Hr).
Defined.

(** ** getMotivationalMessage: the fallback *)

(** C7: when no range of the table contains guiltPercentage, the result is
    the first string of the last range, the 90-100 one; and every
    guiltPercentage of [0, 100] lies in some range, so that [find] succeeds
    and the fallback is not taken there. *)
Theorem fallback_is_first_of_last_range :
  (forall (g : number) (r : Q),
      (forall range, In range motivationalMessages -> inRange g range = false) ->
      exists lastRange first,
        nth_error motivationalMessages (List.length motivationalMessages - 1)
        = Some lastRange
        /\ minGuilt lastRange = num 90 /\ maxGuilt lastRange = num 100
        /\ nth_error (messages lastRange) 0 = Some first
        /\ first = "💭 Take a breath. You don't have to do it all today."
        /\ getMotivationalMessage g r = Returns first)
  /\ (forall q : Q,
        0 <= q <= 100 ->
        (exists range,
            In range motivationalMessages /\ inRange (Finite q) range = true)
        /\ find (inRange (Finite q)) motivationalMessages <> None).
Proof.
  split.
  - intros g r Hnone.
    do 2 eexists. repeat (split; [reflexivity|]).
    apply fallback_message, find_none_all, Hnone.
  - intros q Hq.
    destruct (ranges_cover q Hq) as [range [Hin Hmatch]].
    split; [exists range; split; assumption|].
    intros Hfind.
    rewrite (find_none _ _ Hfind range Hin) in Hmatch. discriminate.
Qed.

Lemma fallback_is_first_of_last_range_witness :
  (forall range, In range motivationalMessages -> inRange (num 101) range = false)
  /\ getMotivationalMessage (num 101) 0
     = Returns "💭 Take a breath. You don't have to do it all today."
  /\ 0 <= 50 <= 100
  /\ find (inRange (Finite 50)) motivationalMessages <> None.
Proof.
  assert (Hnone : forall range,
             In range motivationalMessages -> inRange (num 101) range = false).
  { unfold motivationalMessages. intros range H.
    repeat (destruct H as [<- | H]; [reflexivity|]). destruct H. }
  assert (H50 : 0 <= 50 <= 100) by lra.
  split; [exact Hnone | split; [| split; [exact H50|]]].
  - destruct (proj1 fallback_is_first_of_last_range (num 101) 0 Hnone)
      as [lastRange [first [_ [_ [_ [_ [E Hres]]]]]]].
    rewrite Hres, E. reflexivity.
  - exact (proj2 (proj2 fallback_is_first_of_last_range 50 H50)).
Defined.

(** ** getMotivationalMessage: totality and membership *)

(** C9: for every number guiltPercentage (NaN and the infinities too) and
    every value of [Math.random()], getMotivationalMessage returns a
    string, never [undefined] and without throwing, and the string is one
    of the 24 of the table; every range holds four strings, and the random
    index is an index of the selected list. *)
Theorem message_always_from_table :
  (forall (g : number) (r : Q),
      validRandom r ->
      exists s, getMotivationalMessage g r = Returns s /\ In s allMessages)
  /\ List.length allMessages = 24%nat
  /\ NoDup allMessages
  /\ (forall range,
        In range motivationalMessages -> List.length (messages range) = 4%nat)
  /\ (forall range (r : Q),
        In range motivationalMessages ->
        validRandom r ->
        let n := Z.of_nat (List.length (messages range)) in
        (0 <= Qfloor (r * inject_Z n) < n)%Z).
Proof.
  split; [|split; [reflexivity | split; [| split]]].
  - intros g r Hr.
    destruct (find (inRange g) motivationalMessages) as [range|] eqn:Hfind.
    + destruct (selected_message g r range Hr Hfind) as [s [Hs Hm]].
      exists s. split; [exact Hs|].
      apply in_flat_map. exists range. split; [|exact Hm].
      eapply find_some; eassumption.
    + eexists. split; [apply fallback_message, Hfind|].
      apply in_flat_map.
      exists (nth 5 motivationalMessages
                  {| minGuilt := NaN; maxGuilt := NaN; messages := [] |}).
      split; [do 5 right|]; left; reflexivity.
  - apply (NoDup_count_occ' string_dec).
    intros s Hs.
    repeat (destruct Hs as [<- | Hs]; [reflexivity|]). destruct Hs.
  - exact table_four.
  - intros range r Hin Hr n. apply random_index_bounds; [exact Hr|].
    rewrite (table_four range Hin). lia.
Qed.

Lemma message_always_from_table_witness :
  validRandom (1 # 3)
  /\ exists s, getMotivationalMessage NaN (1 # 3) = Returns s /\ In s allMessages.
Proof.
  assert (Hr : validRandom (1 # 3)) by (unfold validRandom; lra).
  split; [exact Hr|].
  exact (proj1 message_always_from_table NaN (1 # 3) Hr).
Defined.

(** ** getGuiltMeterColor *)

(** Split on every rational comparison of the goal, keeping each outcome as
    an inequality. *)
Ltac split_comparisons :=
  repeat match goal with
         | |- context [Qle_bool ?a ?b] =>
             let E := fresh "E" in
             destruct (Qle_bool a b) eqn:E;
             [ apply Qle_bool_iff in E
             | apply not_true_iff_false in E; rewrite Qle_bool_iff in E ]
         end.

Ltac unfold_color :=
  unfold getGuiltMeterColor, num_ge, num_lt, num_le, num, inject_Z.

(** The colour of a finite guiltPercentage, band by band. *)
Lemma color_of_finite (q : Q) :
  getGuiltMeterColor (Finite q) =
    if Qle_bool 100 q then boldBlend
    else if Qle_bool q 10 then softSilver
    else if Qle_bool q 25 then pastelMint
    else if Qle_bool q 50 then skyBlue
    else if Qle_bool q 75 then warmGold
    else softPink.
Proof. reflexivity. Qed.

(** C2: getGuiltMeterColor agrees with the table of six bands [<= 10],
    [<= 25], [<= 50], [<= 75], [< 100], [>= 100] tried in ascending order,
    first match winning, on every finite number and on both infinities;
    band by band, the colours are soft silver, pastel mint, sky blue, warm
    gold, soft pink and the [>= 100] colour; and guiltPercentage = 10 gets
    soft silver ['#d9d9d9'], not pastel mint. *)
Theorem color_is_first_matching_band :
  (forall q : Q, specBandColor (Finite q) = Some (getGuiltMeterColor (Finite q)))
  /\ specBandColor PosInfinity = Some (getGuiltMeterColor PosInfinity)
  /\ specBandColor NegInfinity = Some (getGuiltMeterColor NegInfinity)
  /\ (forall q : Q,
        (q <= 10 -> getGuiltMeterColor (Finite q) = softSilver)
        /\ (10 < q <= 25 -> getGuiltMeterColor (Finite q) = pastelMint)
        /\ (25 < q <= 50 -> getGuiltMeterColor (Finite q) = skyBlue)
        /\ (50 < q <= 75 -> getGuiltMeterColor (Finite q) = warmGold)
        /\ (75 < q < 100 -> getGuiltMeterColor (Finite q) = softPink)
        /\ (100 <= q -> getGuiltMeterColor (Finite q) = boldBlend))
  /\ getGuiltMeterColor (num 10) = "#d9d9d9"
  /\ getGuiltMeterColor (num 10) <> pastelMint.
Proof.
  split; [|split; [reflexivity | split; [reflexivity | split; [|split]]]].
  - intros q. unfold specBandColor, specColorBands. unfold_color.
    cbn [find fst snd option_map].
    split_comparisons; cbn [negb option_map snd]; try reflexivity; exfalso; lra.
  - intros q. rewrite color_of_finite.
    repeat split; intros H; split_comparisons; try reflexivity; exfalso; lra.
  - reflexivity.
  - discriminate.
Qed.

Lemma color_is_first_matching_band_witness :
  10 <= 10
  /\ getGuiltMeterColor (Finite 10) = softSilver
  /\ 75 < (199 # 2) < 100
  /\ getGuiltMeterColor (Finite (199 # 2)) = softPink.
Proof.
  assert (H10 : 10 <= 10) by lra.
  assert (H99 : 75 < (199 # 2) < 100) by lra.
  pose proof (proj1 (proj2 (proj2 (proj2 color_is_first_matching_band)))) as bands.
  split; [exact H10 | split; [| split; [exact H99|]]].
  - exact (proj1 (bands 10) H10).
  - exact (proj1 (proj2 (proj2 (proj2 (proj2 (bands (199 # 2)))))) H99).
Defined.

(** C10: getGuiltMeterColor returns a colour for every number, inside or
    outside [0, 100], NaN and the infinities included; the colour is one of
    the six constants, which are distinct and each of which is returned for
    some input; and every negative input gets soft silver ['#d9d9d9']. *)
Theorem color_total_one_of_six :
  (forall g : number, In (getGuiltMeterColor g) guiltMeterColors)
  /\ guiltMeterColors
     = ["#a166d3"; "#d9d9d9"; "#98fb98"; "#87ceeb"; "#ffd700"; "#ff69b4"]
  /\ NoDup guiltMeterColors
  /\ (forall c, In c guiltMeterColors -> exists g, getGuiltMeterColor g = c)
  /\ (forall q : Q, q < 0 -> getGuiltMeterColor (Finite q) = "#d9d9d9")
  /\ getGuiltMeterColor NegInfinity = "#d9d9d9".
Proof.
  split; [|split; [reflexivity | split; [|split; [|split]]]].
  - intros [q| | |]; [| left | right; left | do 5 right; left];
      try reflexivity.
    rewrite color_of_finite. unfold guiltMeterColors.
    repeat match goal with
           | |- context [if ?b then _ else _] => destruct b
           end; simpl; auto 10.
  - apply (NoDup_count_occ' string_dec).
    intros c Hc.
    repeat (destruct Hc as [<- | Hc]; [reflexivity|]). destruct Hc.
  - intros c Hc. unfold guiltMeterColors in Hc.
    destruct Hc as [<- | [<- | [<- | [<- | [<- | [<- | []]]]]]].
    + exists (num 100). reflexivity.
    + exists (num 0). reflexivity.
    + exists (num 20). reflexivity.
    + exists (num 40). reflexivity.
    + exists (num 60). reflexivity.
    + exists (num 80). reflexivity.
  - intros q Hq. rewrite color_of_finite.
    split_comparisons; try reflexivity; exfalso; lra.
  - reflexivity.
Qed.

Lemma color_total_one_of_six_witness :
  -5 < 0
  /\ getGuiltMeterColor (Finite (-5)) = "#d9d9d9"
  /\ In "#ffd700" guiltMeterColors
  /\ exists g, getGuiltMeterColor g = "#ffd700".
Proof.
  assert (Hneg : -5 < 0) by lra.
  assert (Hin : In "#ffd700" guiltMeterColors) by (simpl; auto 10).
  split; [exact Hneg | split; [| split; [exact Hin|]]].
  - exact (proj1 (proj2 (proj2 (proj2 (proj2 color_total_one_of_six)))) (-5) Hneg).
  - exact (proj1 (proj2 (proj2 (proj2 color_total_one_of_six))) "#ffd700" Hin).
Defined.

(** ** The progress calculator: sums and rounding *)

Lemma sumWeight_from (tasks : list Task) :
  forall acc : Q,
    fold_left (fun sum t => sum + weight t) tasks acc
    == acc + Qsum (map weight tasks).
Proof.
  induction tasks as [|t tasks IH]; intros acc; simpl.
  - ring.
  - rewrite IH. ring.
Qed.

Lemma sumWeight_Qsum (tasks : list Task) :
  sumWeight tasks == Qsum (map weight tasks).
Proof. unfold sumWeight. rewrite sumWeight_from. ring. Qed.






Lemma clampPercentage_range (p : Z) : (0 <= clampPercentage p <= 100)%Z.
Proof. unfold clampPercentage. lia. Qed.


Lemma progress_in_bounds (tasks : list Task) :
  (0 <= progressPercentage (calculateProgress tasks) <= 100)%Z.
Proof.
  unfold calculateProgress. cbn [progressPercentage].
  destruct ((Z.of_nat (List.length tasks) =? 0)%Z || Qeq_bool (sumWeight tasks) 0);
    [lia | apply clampPercentage_range].
Qed.


(** ** The progress calculator: percentages and counts *)





(** C5: the empty task list gives
    [{totalTasks: 0, completedTasks: 0, progressPercentage: 0,
      guiltPercentage: 100}]. *)
Theorem empty_task_list :
  calculateProgress []
  = {| totalTasks := 0; completedTasks := 0;
       progressPercentage := 0; guiltPercentage := 100 |}.
Proof. reflexivity. Qed.

(** C3: for every task list guiltPercentage is 100 - progressPercentage,
    so that the two add up to 100, and both lie in [0, 100]. *)
Theorem guilt_complements_progress (tasks : list Task) :
  let s := calculateProgress tasks in
  guiltPercentage s = (100 - progressPercentage s)%Z
  /\ (guiltPercentage s + progressPercentage s = 100)%Z
  /\ (0 <= progressPercentage s <= 100)%Z
  /\ (0 <= guiltPercentage s <= 100)%Z.
Proof.
  intros s.
  assert (Hg : guiltPercentage s = (100 - progressPercentage s)%Z) by reflexivity.
  pose proof (progress_in_bounds tasks) as Hp. fold s in Hp.
  split; [exact Hg | lia].
Qed.

(** C8: for every task list, whatever the weights, completedTasks is at
    most totalTasks and progressPercentage lies in [0, 100]. *)
Theorem counts_and_percentage_bounds (tasks : list Task) :
  let s := calculateProgress tasks in
  (0 <= completedTasks s <= totalTasks s)%Z
  /\ (0 <= progressPercentage s <= 100)%Z.
Proof.
  intros s. split.
  - unfold s, calculateProgress. cbn [completedTasks totalTasks].
    pose proof (filter_length_le completed tasks). lia.
  - exact (progress_in_bounds tasks).
Qed.

(** * Further properties of the presentation mapper *)

Lemma selectedRange_finite (q : Q) :
  selectedRange (Finite q) =
    if Qle_bool 0 q && Qle_bool q 10 then nth_error motivationalMessages 0
    else if Qle_bool 10 q && Qle_bool q 25 then nth_error motivationalMessages 1
    else if Qle_bool 25 q && Qle_bool q 50 then nth_error motivationalMessages 2
    else if Qle_bool 50 q && Qle_bool q 75 then nth_error motivationalMessages 3
    else if Qle_bool 75 q && Qle_bool q 90 then nth_error motivationalMessages 4
    else if Qle_bool 90 q && Qle_bool q 100 then nth_error motivationalMessages 5
    else None.
Proof. reflexivity. Qed.

Lemma messages_of_selected (g : number) (r : Q) (k : nat) :
  validRandom r ->
  selectedRange g = nth_error motivationalMessages k ->
  (k < 6)%nat ->
  exists s, getMotivationalMessage g r = Returns s /\ In s (messagesOfRange k).
Proof.
  intros Hr Hsel Hk.
  destruct (nth_error motivationalMessages k) as [range|] eqn:Hnth.
  - destruct (selected_message g r range Hr Hsel) as [s [Hs Hin]].
    exists s. split; [exact Hs|]. unfold messagesOfRange. now rewrite Hnth.
  - apply nth_error_None in Hnth. simpl in Hnth. lia.
Qed.

(** The ranges overlap at their edges, and the earlier one takes the edge:
    the strings come from the range 0-10 on [0, 10], from 10-25 on
    (10, 25], from 25-50 on (25, 50], from 50-75 on (50, 75], from 75-90 on
    (75, 90] and from 90-100 on (90, 100]. *)
Theorem message_range_by_interval (q r : Q) :
  validRandom r ->
  forall k : nat,
    (k = 0%nat /\ 0 <= q <= 10) \/ (k = 1%nat /\ 10 < q <= 25)
    \/ (k = 2%nat /\ 25 < q <= 50) \/ (k = 3%nat /\ 50 < q <= 75)
    \/ (k = 4%nat /\ 75 < q <= 90) \/ (k = 5%nat /\ 90 < q <= 100) ->
    exists s,
      getMotivationalMessage (Finite q) r = Returns s
      /\ In s (messagesOfRange k).
Proof.
  intros Hr k Hk.
  apply messages_of_selected; [exact Hr | | intuition lia].
  rewrite selectedRange_finite.
  destruct Hk as [[-> H] | [[-> H] | [[-> H] | [[-> H] | [[-> H] | [-> H]]]]]];
    split_comparisons; cbn [andb]; try reflexivity; exfalso; lra.
Qed.

Lemma message_range_by_interval_witness :
  validRandom (1 # 2)
  /\ 75 < 90 <= 90
  /\ exists s,
       getMotivationalMessage (Finite 90) (1 # 2) = Returns s
       /\ In s (messagesOfRange 4).
Proof.
  assert (Hr : validRandom (1 # 2)) by (unfold validRandom; lra).
  assert (Hq : 75 < 90 <= 90) by lra.
  split; [exact Hr | split; [exact Hq|]].
  apply (message_range_by_interval 90 (1 # 2) Hr 4%nat).
  do 4 right. left. split; [reflexivity | exact Hq].
Defined.

(** A guilt percentage outside [0, 100] (a negative one, one above 100, an
    infinity, NaN) always gets the first string of the 90-100 range,
    whatever the random number. *)
Theorem out_of_scale_message (g : number) (r : Q) :
  outOfScale g ->
  getMotivationalMessage g r
  = Returns "💭 Take a breath. You don't have to do it all today.".
Proof.
  intros Hg. apply fallback_message. fold (selectedRange g).
  destruct g as [q| | |]; try reflexivity.
  rewrite selectedRange_finite. simpl in Hg.
  destruct Hg; split_comparisons; cbn [andb]; try reflexivity; exfalso; lra.
Qed.

Lemma out_of_scale_message_witness :
  outOfScale (num (-50))
  /\ getMotivationalMessage (num (-50)) (7 # 8)
     = Returns "💭 Take a breath. You don't have to do it all today.".
Proof.
  assert (H : outOfScale (num (-50))) by (left; reflexivity).
  split; [exact H | exact (out_of_scale_message (num (-50)) (7 # 8) H)].
Defined.

(** The floor of a rational between an integer and its successor. *)
Lemma Qfloor_between (x : Q) (k : Z) :
  inject_Z k <= x -> x < inject_Z k + 1 -> Qfloor x = k.
Proof.
  intros Hlo Hhi.
  pose proof (Qfloor_le x) as Hfl.
  pose proof (Qlt_floor x) as Hfu.
  rewrite inject_Z_plus in Hfu. change (inject_Z 1) with 1 in Hfu.
  assert (H1 : (Qfloor x < k + 1)%Z).
  { rewrite Zlt_Qlt, inject_Z_plus. change (inject_Z 1) with 1. lra. }
  assert (H2 : (k < Qfloor x + 1)%Z).
  { rewrite Zlt_Qlt, inject_Z_plus. change (inject_Z 1) with 1. lra. }
  lia.
Qed.

(** Each quarter of [0, 1) picks one string: with the random number in
    [k/4, (k+1)/4) the result is the string at index k of the selected
    range, so that a uniform random number makes the four equally likely. *)
Theorem message_by_quarter (g : number) (r : Q) (range : MotivationalMessage)
    (k : nat) (s : string) :
  selectedRange g = Some range ->
  nth_error (messages range) k = Some s ->
  inject_Z (Z.of_nat k) / 4 <= r < (inject_Z (Z.of_nat k) + 1) / 4 ->
  getMotivationalMessage g r = Returns s.
Proof.
  intros Hsel Hk [Hlo Hhi].
  unfold Qdiv in Hlo, Hhi. change (/ 4) with (1 # 4) in Hlo, Hhi.
  unfold getMotivationalMessage. unfold selectedRange in Hsel. rewrite Hsel.
  cbv zeta.
  rewrite (table_four range) by (eapply find_some; eassumption).
  change (inject_Z (Z.of_nat 4)) with 4.
  rewrite (Qfloor_between (r * 4) (Z.of_nat k)) by lra.
  unfold array_get.
  destruct (Z.of_nat k <? 0)%Z eqn:E; [apply Z.ltb_lt in E; lia|].
  rewrite Nat2Z.id, Hk. reflexivity.
Qed.

Lemma message_by_quarter_witness :
  selectedRange (num 60) = nth_error motivationalMessages 3
  /\ inject_Z (Z.of_nat 2) / 4 <= (5 # 8) < (inject_Z (Z.of_nat 2) + 1) / 4
  /\ getMotivationalMessage (num 60) (5 # 8)
     = Returns "🎪 Progress is happening! Stay focused!".
Proof.
  assert (Hq : inject_Z (Z.of_nat 2) / 4 <= (5 # 8) < (inject_Z (Z.of_nat 2) + 1) / 4).
  { split; [discriminate | reflexivity]. }
  split; [reflexivity | split; [exact Hq|]].
  exact (message_by_quarter (num 60) (5 # 8) _ 2 _ eq_refl eq_refl Hq).
Defined.

(** Every string of the table is returned for some guilt percentage and
    some value of [Math.random()]: none of the 24 is dead. *)
Theorem every_message_reachable (s : string) :
  In s allMessages ->
  exists (g : number) (r : Q),
    validRandom r /\ getMotivationalMessage g r = Returns s.
Proof.
  intros Hs. apply in_flat_map in Hs. destruct Hs as [range [Hrange Hs]].
  apply In_nth_error in Hs. destruct Hs as [k Hk].
  assert (Hlen : (k < 4)%nat).
  { rewrite <- (table_four range Hrange). apply nth_error_Some. congruence. }
  assert (Hg : exists g, selectedRange g = Some range).
  { unfold motivationalMessages in Hrange.
    destruct Hrange as [<- | [<- | [<- | [<- | [<- | [<- | []]]]]]].
    - exists (num 5). reflexivity.
    - exists (num 20). reflexivity.
    - exists (num 40). reflexivity.
    - exists (num 60). reflexivity.
    - exists (num 80). reflexivity.
    - exists (num 95). reflexivity. }
  destruct Hg as [g Hg].
  exists g, ((2 * inject_Z (Z.of_nat k) + 1) * (1 # 8)).
  assert (Hk0 : 0 <= inject_Z (Z.of_nat k)).
  { change 0 with (inject_Z 0). rewrite <- Zle_Qle. lia. }
  assert (Hk3 : inject_Z (Z.of_nat k) <= 3).
  { change 3 with (inject_Z 3). rewrite <- Zle_Qle. lia. }
  split.
  - unfold validRandom. lra.
  - apply (message_by_quarter g _ range k s Hg Hk).
    unfold Qdiv. change (/ 4) with (1 # 4). lra.
Qed.

Lemma every_message_reachable_witness :
  In "🌿 Be gentle with yourself. Small steps count!" allMessages
  /\ exists (g : number) (r : Q),
       validRandom r
       /\ getMotivationalMessage g r
          = Returns "🌿 Be gentle with yourself. Small steps count!".
Proof.
  assert (H : In "🌿 Be gentle with yourself. Small steps count!" allMessages).
  { do 22 right. left. reflexivity. }
  split; [exact H | exact (every_message_reachable _ H)].
Defined.

Lemma Qle_bool_false (a b : Q) : b < a -> Qle_bool a b = false.
Proof.
  intros H. apply not_true_iff_false. rewrite Qle_bool_iff. lra.
Qed.

(** Settle every rational comparison of the goal that the hypotheses
    decide. *)
Ltac settle_comparisons :=
  repeat match goal with
         | |- context [Qle_bool ?a ?b] =>
             first [ rewrite (proj2 (Qle_bool_iff a b)) by lra
                   | rewrite (Qle_bool_false a b) by lra ]
         end.

(** The colour that goes with each range of the table below 100. *)
Lemma range_and_color (q : Q) :
  0 <= q < 100 ->
  exists k : nat,
    (k < 6)%nat
    /\ selectedRange (Finite q) = nth_error motivationalMessages k
    /\ getGuiltMeterColor (Finite q)
       = nth k [softSilver; pastelMint; skyBlue; warmGold; softPink; softPink] "".
Proof.
  intros [Hlo Hhi]. rewrite selectedRange_finite, color_of_finite.
  destruct (Qlt_le_dec 10 q) as [H10|H10];
    [| exists 0%nat; settle_comparisons; split; [lia | split; reflexivity]].
  destruct (Qlt_le_dec 25 q) as [H25|H25];
    [| exists 1%nat; settle_comparisons; split; [lia | split; reflexivity]].
  destruct (Qlt_le_dec 50 q) as [H50|H50];
    [| exists 2%nat; settle_comparisons; split; [lia | split; reflexivity]].
  destruct (Qlt_le_dec 75 q) as [H75|H75];
    [| exists 3%nat; settle_comparisons; split; [lia | split; reflexivity]].
  destruct (Qlt_le_dec 90 q) as [H90|H90];
    [| exists 4%nat; settle_comparisons; split; [lia | split; reflexivity]].
  exists 5%nat; settle_comparisons; split; [lia | split; reflexivity].
Qed.

(** Below 100 the colour goes with the message range: two guilt
    percentages of [0, 100) whose messages come from the same range get the
    same colour.  At 100 itself the range is still 90-100 and the colour
    changes. *)
Theorem color_follows_message_range :
  (forall q q' : Q,
      0 <= q < 100 -> 0 <= q' < 100 ->
      selectedRange (Finite q) = selectedRange (Finite q') ->
      getGuiltMeterColor (Finite q) = getGuiltMeterColor (Finite q'))
  /\ selectedRange (num 100) = selectedRange (num 95)
  /\ getGuiltMeterColor (num 100) <> getGuiltMeterColor (num 95).
Proof.
  split; [| split; [reflexivity | discriminate]].
  intros q q' Hq Hq' Hsame.
  destruct (range_and_color q Hq) as [k [Hk [Hr Hc]]].
  destruct (range_and_color q' Hq') as [k' [Hk' [Hr' Hc']]].
  rewrite Hc, Hc'. rewrite Hr, Hr' in Hsame. clear - Hk Hk' Hsame.
  do 6 (destruct k as [|k]; [
    do 6 (destruct k' as [|k']; [first [reflexivity | discriminate Hsame] |]); lia |]).
  lia.
Qed.

Lemma color_follows_message_range_witness :
  0 <= 80 < 100 /\ 0 <= (179 # 2) < 100
  /\ selectedRange (Finite 80) = selectedRange (Finite (179 # 2))
  /\ getGuiltMeterColor (Finite 80) = getGuiltMeterColor (Finite (179 # 2)).
Proof.
  assert (H1 : 0 <= 80 < 100) by lra.
  assert (H2 : 0 <= (179 # 2) < 100) by lra.
  assert (H3 : selectedRange (Finite 80) = selectedRange (Finite (179 # 2)))
    by reflexivity.
  split; [exact H1 | split; [exact H2 | split; [exact H3|]]].
  exact (proj1 color_follows_message_range 80 (179 # 2) H1 H2 H3).
Defined.

(** * The application state *)

Lemma isId_true (c : option string) (x : string) :
  isId c x = true <-> c = Some x.
Proof.
  destruct c as [y|]; simpl.
  - rewrite String.eqb_eq. split; [now intros -> | now intros [= ->]].
  - split; discriminate.
Qed.

Lemma currentProject_some (s : AppState) (p : Project) :
  currentProject s = Some p ->
  In p (projects s) /\ currentProjectId s = Some (project_id p).
Proof.
  intros H. apply find_some in H. destruct H as [Hin Hid].
  split; [exact Hin | now apply isId_true].
Qed.

(** [find] by identifier on a list whose head has that identifier. *)
Lemma find_head_id (ps : list Project) :
  find (fun p => isId (option_map project_id (hd_error ps)) (project_id p)) ps
  = hd_error ps.
Proof.
  destruct ps as [|p ps]; [reflexivity|].
  simpl. now rewrite String.eqb_refl.
Qed.

Lemma updateTasksOf_ids (cp : Project) (f : list Task -> list Task)
    (ps : list Project) :
  projectIds (updateTasksOf cp f ps) = projectIds ps.
Proof.
  unfold projectIds, updateTasksOf. rewrite map_map. apply map_ext.
  intros p. now destruct (String.eqb (project_id p) (project_id cp)).
Qed.

Lemma selectionValid_ids (s : AppState) :
  selectionValid s <->
  match currentProjectId s with
  | Some c => In c (projectIds (projects s))
  | None => True
  end.
Proof.
  unfold selectionValid, projectIds.
  destruct (currentProjectId s) as [c|]; [|reflexivity].
  rewrite in_map_iff. split; intros [p [H1 H2]]; exists p; tauto.
Qed.

(** [find] by identifier commutes with the update of the tasks. *)
Lemma find_updateTasksOf (c : option string) (cp : Project)
    (f : list Task -> list Task) (ps : list Project) :
  find (fun p => isId c (project_id p)) (updateTasksOf cp f ps)
  = option_map
      (fun p => if String.eqb (project_id p) (project_id cp)
                then withTasks p (f (project_tasks p)) else p)
      (find (fun p => isId c (project_id p)) ps).
Proof.
  induction ps as [|p ps IH]; [reflexivity|].
  simpl.
  destruct (String.eqb (project_id p) (project_id cp)) eqn:E; simpl;
    destruct (isId c (project_id p)); simpl; try rewrite E; auto.
Qed.

(** ** Requests that fail *)

(** A request that is refused or that throws changes neither the projects
    nor the selection, in any handler; the handler leaves an error message
    (a task handler when a project is selected), and [loadProjects] ends
    with [loading] off. *)
Theorem failed_request_keeps_data (s : AppState) :
  (forall r, notOk r ->
     sameData s (handleAddProject s r) /\ error (handleAddProject s r) <> None)
  /\ (forall projectId r, notOk r ->
        sameData s (handleDeleteProject s projectId r)
        /\ error (handleDeleteProject s projectId r) <> None)
  /\ (forall r, notOk r ->
        sameData s (handleAddTask s r)
        /\ (currentProject s <> None -> error (handleAddTask s r) <> None))
  /\ (forall taskId r, notOk r ->
        sameData s (handleToggleTask s taskId r)
        /\ (currentProject s <> None -> error (handleToggleTask s taskId r) <> None))
  /\ (forall taskId r, notOk r ->
        sameData s (handleRemoveTask s taskId r)
        /\ (currentProject s <> None -> error (handleRemoveTask s taskId r) <> None))
  /\ (forall r, notOk r ->
        sameData s (loadProjects s r)
        /\ error (loadProjects s r) <> None
        /\ loading (loadProjects s r) = false).
Proof.
  unfold sameData.
  repeat split; try (intros Hcp);
    match goal with
    | H : notOk ?r |- _ => destruct r; [destruct H | |]
    end;
    unfold handleAddProject, handleDeleteProject, handleAddTask,
      handleToggleTask, handleRemoveTask, loadProjects;
    try (destruct (currentProject s); [| try reflexivity; congruence]);
    simpl; try reflexivity; discriminate.
Qed.

Lemma failed_request_keeps_data_witness :
  notOk (ResponseNotOk (A := unit) (JsonBody None))
  /\ sameData (mkAppState [mkProject "p1" "Thesis" None []] (Some "p1") false None)
       (handleDeleteProject
          (mkAppState [mkProject "p1" "Thesis" None []] (Some "p1") false None)
          "p1" (ResponseNotOk (JsonBody None)))
  /\ error (handleDeleteProject
              (mkAppState [mkProject "p1" "Thesis" None []] (Some "p1") false None)
              "p1" (ResponseNotOk (JsonBody None)))
     <> None.
Proof.
  split; [exact I|].
  exact (proj1 (proj2 (failed_request_keeps_data
                         (mkAppState [mkProject "p1" "Thesis" None []]
                                     (Some "p1") false None)))
               "p1" (ResponseNotOk (JsonBody None)) I).
Defined.

(** ** Deleting a project *)

(** After a deletion the server accepted, the list holds the projects with
    another identifier, the selected project is never the deleted one, and
    when the deleted project was the selected one the first remaining
    project is selected (none when the list is empty). *)
Theorem delete_project_effect (s : AppState) (projectId : string) :
  let s' := handleDeleteProject s projectId (ResponseOk tt) in
  (forall p, In p (projects s') <-> In p (projects s) /\ project_id p <> projectId)
  /\ (forall p, currentProject s' = Some p -> project_id p <> projectId)
  /\ (currentProjectId s = Some projectId ->
        currentProject s' = hd_error (projects s')).
Proof.
  intros s'. unfold s', handleDeleteProject.
  set (kept := filter (fun p => negb (String.eqb (project_id p) projectId))
                      (projects s)).
  assert (Hkept : forall p, In p kept <-> In p (projects s) /\ project_id p <> projectId).
  { intros p. unfold kept. rewrite filter_In, negb_true_iff, String.eqb_neq.
    reflexivity. }
  assert (Hnot : forall st p,
             projects st = kept -> currentProject st = Some p ->
             project_id p <> projectId).
  { intros st p Hst H. apply currentProject_some in H. destruct H as [Hin _].
    rewrite Hst in Hin. apply Hkept in Hin. tauto. }
  destruct (isId (currentProjectId s) projectId) eqn:Hcur.
  - split; [exact Hkept | split].
    + intros p. now apply Hnot.
    + intros _. unfold currentProject.
      cbn [projects currentProjectId setCurrentProjectId setProjects].
      replace (match kept with
               | [] => None
               | first :: _ => Some (project_id first)
               end) with (option_map project_id (hd_error kept))
        by now destruct kept.
      apply find_head_id.
  - split; [exact Hkept | split].
    + intros p. now apply Hnot.
    + intros Habs. apply isId_true in Habs. congruence.
Qed.

Lemma delete_project_effect_witness :
  currentProjectId
    (mkAppState [mkProject "p1" "Thesis" None []; mkProject "p2" "Garden" None []]
                (Some "p1") false None)
  = Some "p1"
  /\ currentProject
       (handleDeleteProject
          (mkAppState [mkProject "p1" "Thesis" None []; mkProject "p2" "Garden" None []]
                      (Some "p1") false None)
          "p1" (ResponseOk tt))
     = Some (mkProject "p2" "Garden" None []).
Proof.
  split; [reflexivity|].
  exact (proj2 (proj2 (delete_project_effect
                         (mkAppState [mkProject "p1" "Thesis" None [];
                                      mkProject "p2" "Garden" None []]
                                     (Some "p1") false None) "p1"))
               eq_refl).
Defined.

(** ** The selection *)

(** Once the selection names a project of the list it keeps doing so:
    creating and deleting projects, adding, toggling and removing tasks,
    and selecting a listed project all keep it valid, whatever the server
    answers. *)
Theorem selection_stays_valid (s : AppState) :
  selectionValid s ->
  (forall r, selectionValid (handleAddProject s r))
  /\ (forall projectId r, selectionValid (handleDeleteProject s projectId r))
  /\ (forall r, selectionValid (handleAddTask s r))
  /\ (forall taskId r, selectionValid (handleToggleTask s taskId r))
  /\ (forall taskId r, selectionValid (handleRemoveTask s taskId r))
  /\ (forall p, In p (projects s) -> selectionValid (handleSelectProject s (project_id p))).
Proof.
  intros Hvalid.
  assert (Htasks : forall cp f,
             selectionValid (setProjects s (updateTasksOf cp f (projects s)))).
  { intros cp f. apply selectionValid_ids. apply selectionValid_ids in Hvalid.
    cbn [setProjects projects currentProjectId].
    now rewrite updateTasksOf_ids. }
  split; [|split; [|split; [|split; [|split]]]].
  - intros [newProject | d | e]; [| exact Hvalid | exact Hvalid].
    exists newProject. split; [|reflexivity].
    cbn [handleAddProject setCurrentProjectId setProjects projects].
    apply in_or_app. right. now left.
  - intros projectId [[] | d | e]; [| exact Hvalid | exact Hvalid].
    unfold handleDeleteProject.
    set (kept := filter (fun p => negb (String.eqb (project_id p) projectId))
                        (projects s)).
    destruct (isId (currentProjectId s) projectId) eqn:Hcur.
    + unfold selectionValid. cbn [setCurrentProjectId setProjects projects currentProjectId].
      destruct kept as [|first rest]; [exact I|].
      exists first. split; [now left | reflexivity].
    + unfold selectionValid in *. cbn [setProjects projects currentProjectId].
      destruct (currentProjectId s) as [c|]; [|exact I].
      destruct Hvalid as [p [Hin Hid]]. exists p. split; [|exact Hid].
      unfold kept. apply filter_In. split; [exact Hin|].
      apply negb_true_iff, String.eqb_neq. intros Heq.
      simpl in Hcur. apply String.eqb_neq in Hcur. congruence.
  - intros r. unfold handleAddTask.
    destruct (currentProject s); [|exact Hvalid].
    destruct r; [apply Htasks | exact Hvalid | exact Hvalid].
  - intros taskId r. unfold handleToggleTask.
    destruct (currentProject s); [|exact Hvalid].
    destruct r; [apply Htasks | exact Hvalid | exact Hvalid].
  - intros taskId r. unfold handleRemoveTask.
    destruct (currentProject s); [|exact Hvalid].
    destruct r; [apply Htasks | exact Hvalid | exact Hvalid].
  - intros p Hin. exists p. split; [exact Hin | reflexivity].
Qed.

Lemma selection_stays_valid_witness :
  selectionValid
    (mkAppState [mkProject "p1" "Thesis" None []; mkProject "p2" "Garden" None []]
                (Some "p2") false None)
  /\ selectionValid
       (handleDeleteProject
          (mkAppState [mkProject "p1" "Thesis" None []; mkProject "p2" "Garden" None []]
                      (Some "p2") false None)
          "p2" (ResponseOk tt)).
Proof.
  assert (H : selectionValid
                (mkAppState [mkProject "p1" "Thesis" None [];
                             mkProject "p2" "Garden" None []]
                            (Some "p2") false None)).
  { exists (mkProject "p2" "Garden" None []). split; [right; now left | reflexivity]. }
  split; [exact H|].
  exact (proj1 (proj2 (selection_stays_valid _ H)) "p2" (ResponseOk tt)).
Defined.

(** ** Loading the projects *)

(** After a load the server answered, the list is the answer, the selected
    project is its first project (none for an empty answer, even when a
    project was selected before), the error is cleared and [loading] is
    off. *)
Theorem load_selects_first (s : AppState) (data : list Project) :
  let s' := loadProjects s (ResponseOk data) in
  projects s' = data
  /\ currentProject s' = hd_error data
  /\ error s' = None
  /\ loading s' = false.
Proof.
  intros s'. unfold s', loadProjects.
  destruct data as [|first rest]; repeat split.
  unfold currentProject. cbn [projects currentProjectId setLoading setError
    setCurrentProjectId setProjects].
  apply (find_head_id (first :: rest)).
Qed.

(** ** Creating a project and deleting it again *)

(** Creating a project under an identifier no project has and then deleting
    it gives back the list of projects; the selection does not come back:
    it is the first project of the list, or none for an empty list. *)
Theorem create_then_delete (s : AppState) (newProject : Project) :
  ~ In (project_id newProject) (projectIds (projects s)) ->
  let s' := handleDeleteProject (handleAddProject s (ResponseOk newProject))
                                (project_id newProject) (ResponseOk tt) in
  projects s' = projects s
  /\ currentProjectId s' = option_map project_id (hd_error (projects s))
  /\ currentProject s' = hd_error (projects s).
Proof.
  intros Hfresh s'.
  assert (Hkept :
    filter (fun p => negb (String.eqb (project_id p) (project_id newProject)))
           (projects s ++ [newProject])%list = projects s).
  { rewrite filter_app. simpl. rewrite String.eqb_refl. simpl.
    rewrite app_nil_r. apply forallb_filter_id. apply forallb_forall.
    intros p Hp. apply negb_true_iff, String.eqb_neq. intros Heq.
    apply Hfresh. rewrite <- Heq. unfold projectIds. now apply in_map. }
  unfold s', handleDeleteProject, handleAddProject.
  cbn [projects currentProjectId setCurrentProjectId setProjects isId].
  rewrite String.eqb_refl, Hkept.
  assert (Hcur : match projects s with
                 | [] => None
                 | first :: _ => Some (project_id first)
                 end = option_map project_id (hd_error (projects s)))
    by now destruct (projects s).
  split; [reflexivity | split; [exact Hcur|]].
  unfold currentProject.
  cbn [projects currentProjectId setCurrentProjectId setProjects].
  rewrite Hcur. apply find_head_id.
Qed.

Lemma create_then_delete_witness :
  ~ In (project_id (mkProject "p3" "Attic" None []))
       (projectIds (projects
          (mkAppState [mkProject "p1" "Thesis" None []; mkProject "p2" "Garden" None []]
                      (Some "p2") false None)))
  /\ currentProjectId
       (handleDeleteProject
          (handleAddProject
             (mkAppState [mkProject "p1" "Thesis" None []; mkProject "p2" "Garden" None []]
                         (Some "p2") false None)
             (ResponseOk (mkProject "p3" "Attic" None [])))
          "p3" (ResponseOk tt))
     = Some "p1".
Proof.
  assert (H : ~ In (project_id (mkProject "p3" "Attic" None []))
                   (projectIds (projects
                      (mkAppState [mkProject "p1" "Thesis" None [];
                                   mkProject "p2" "Garden" None []]
                                  (Some "p2") false None)))).
  { intros [H | [H | []]]; discriminate H. }
  split; [exact H|].
  exact (proj1 (proj2 (create_then_delete _ (mkProject "p3" "Attic" None []) H))).
Defined.

(** ** The task handlers *)

Lemma currentProject_updateTasksOf (s : AppState) (cp : Project)
    (f : list Task -> list Task) :
  currentProject s = Some cp ->
  currentProject (setProjects s (updateTasksOf cp f (projects s)))
  = Some (withTasks cp (f (project_tasks cp))).
Proof.
  intros Hcp. unfold currentProject in *.
  cbn [setProjects projects currentProjectId].
  rewrite find_updateTasksOf, Hcp. simpl. now rewrite String.eqb_refl.
Qed.

(** With a project selected and the server accepting, the same project
    stays selected and its tasks are: the old ones followed by the new task
    after an addition; the old ones, each task of the toggled identifier
    replaced by the server's task, after a toggle (so their number is
    kept); the old ones without the tasks of the removed identifier after a
    removal. *)
Theorem task_handlers_on_selected (s : AppState) (cp : Project) :
  currentProject s = Some cp ->
  (forall newTask,
      exists cp',
        currentProject (handleAddTask s (ResponseOk newTask)) = Some cp'
        /\ project_id cp' = project_id cp
        /\ project_tasks cp' = (project_tasks cp ++ [newTask])%list)
  /\ (forall taskId updatedTask,
        exists cp',
          currentProject (handleToggleTask s taskId (ResponseOk updatedTask)) = Some cp'
          /\ project_id cp' = project_id cp
          /\ List.length (project_tasks cp') = List.length (project_tasks cp)
          /\ forall i t,
               nth_error (project_tasks cp) i = Some t ->
               nth_error (project_tasks cp') i
               = Some (if String.eqb (id t) taskId then updatedTask else t))
  /\ (forall taskId,
        exists cp',
          currentProject (handleRemoveTask s taskId (ResponseOk tt)) = Some cp'
          /\ project_id cp' = project_id cp
          /\ forall t, In t (project_tasks cp')
                       <-> In t (project_tasks cp) /\ id t <> taskId).
Proof.
  intros Hcp. split; [|split].
  - intros newTask.
    exists (withTasks cp (project_tasks cp ++ [newTask])%list).
    split; [|split; reflexivity].
    unfold handleAddTask. rewrite Hcp.
    now apply currentProject_updateTasksOf.
  - intros taskId updatedTask.
    exists (withTasks cp
              (map (fun t => if String.eqb (id t) taskId then updatedTask else t)
                   (project_tasks cp))).
    split; [|split; [reflexivity | split]].
    + unfold handleToggleTask. rewrite Hcp.
      now apply currentProject_updateTasksOf.
    + cbn [withTasks project_tasks]. apply length_map.
    + intros i t Hi. cbn [withTasks project_tasks].
      rewrite nth_error_map, Hi. reflexivity.
  - intros taskId.
    exists (withTasks cp
              (filter (fun t => negb (String.eqb (id t) taskId)) (project_tasks cp))).
    split; [|split; [reflexivity|]].
    + unfold handleRemoveTask. rewrite Hcp.
      now apply currentProject_updateTasksOf.
    + intros t. cbn [withTasks project_tasks].
      rewrite filter_In, negb_true_iff, String.eqb_neq. reflexivity.
Qed.

Lemma task_handlers_on_selected_witness :
  currentProject
    (mkAppState [mkProject "p1" "Thesis" None [mkTask "t1" "Outline" 2 false]]
                (Some "p1") false None)
  = Some (mkProject "p1" "Thesis" None [mkTask "t1" "Outline" 2 false])
  /\ exists cp',
       currentProject
         (handleAddTask
            (mkAppState [mkProject "p1" "Thesis" None [mkTask "t1" "Outline" 2 false]]
                        (Some "p1") false None)
            (ResponseOk (mkTask "t2" "Draft" 5 false)))
       = Some cp'
       /\ project_id cp' = "p1"
       /\ project_tasks cp'
          = [mkTask "t1" "Outline" 2 false; mkTask "t2" "Draft" 5 false].
Proof.
  split; [reflexivity|].
  exact (proj1 (task_handlers_on_selected
                  (mkAppState [mkProject "p1" "Thesis" None
                                 [mkTask "t1" "Outline" 2 false]]
                              (Some "p1") false None)
                  _ eq_refl)
               (mkTask "t2" "Draft" 5 false)).
Defined.

(** The task handlers change no project but those with the identifier of
    the selection: every other project keeps its place and its tasks,
    whatever the server answers; with nothing selected nothing changes. *)
Theorem task_handlers_leave_others (s : AppState) (i : nat) (p : Project) :
  nth_error (projects s) i = Some p ->
  currentProjectId s <> Some (project_id p) ->
  (forall r, nth_error (projects (handleAddTask s r)) i = Some p)
  /\ (forall taskId r, nth_error (projects (handleToggleTask s taskId r)) i = Some p)
  /\ (forall taskId r, nth_error (projects (handleRemoveTask s taskId r)) i = Some p).
Proof.
  intros Hi Hother.
  assert (Hupd : forall cp f,
             currentProject s = Some cp ->
             nth_error (updateTasksOf cp f (projects s)) i = Some p).
  { intros cp f Hcp. apply currentProject_some in Hcp. destruct Hcp as [_ Hcur].
    unfold updateTasksOf. rewrite nth_error_map, Hi. simpl.
    destruct (String.eqb (project_id p) (project_id cp)) eqn:E; [|reflexivity].
    apply String.eqb_eq in E. congruence. }
  split; [|split]; intros;
    unfold handleAddTask, handleToggleTask, handleRemoveTask;
    destruct (currentProject s) as [cp|] eqn:Hcp; try exact Hi;
    match goal with
    | |- context [match ?r with ResponseOk _ => _ | _ => _ end] => destruct r
    end; cbn [setProjects setError projects]; try exact Hi; now apply Hupd.
Qed.

Lemma task_handlers_leave_others_witness :
  nth_error
    (projects
       (mkAppState [mkProject "p1" "Thesis" None [mkTask "t1" "Outline" 2 false];
                    mkProject "p2" "Garden" None [mkTask "t1" "Dig" 1 false]]
                   (Some "p1") false None)) 1
  = Some (mkProject "p2" "Garden" None [mkTask "t1" "Dig" 1 false])
  /\ Some "p1" <> Some "p2"
  /\ nth_error
       (projects
          (handleRemoveTask
             (mkAppState [mkProject "p1" "Thesis" None [mkTask "t1" "Outline" 2 false];
                          mkProject "p2" "Garden" None [mkTask "t1" "Dig" 1 false]]
                         (Some "p1") false None)
             "t1" (ResponseOk tt))) 1
     = Some (mkProject "p2" "Garden" None [mkTask "t1" "Dig" 1 false]).
Proof.
  assert (H : Some "p1" <> Some "p2") by discriminate.
  split; [reflexivity | split; [exact H|]].
  exact (proj2 (proj2 (task_handlers_leave_others
                         (mkAppState
                            [mkProject "p1" "Thesis" None [mkTask "t1" "Outline" 2 false];
                             mkProject "p2" "Garden" None [mkTask "t1" "Dig" 1 false]]
                            (Some "p1") false None)
                         1 _ eq_refl H))
               "t1" (ResponseOk tt)).
Defined.

Lemma withTasks_same (p : Project) : withTasks p (project_tasks p) = p.
Proof. now destruct p. Qed.

Lemma setProjects_same (s : AppState) (ps : list Project) :
  setProjects (setProjects s ps) (projects s) = s.
Proof. now destruct s. Qed.

(** Adding a task under an identifier that no task of the selected project
    has, and then removing that identifier, gives back the state as it
    was. *)
Theorem add_then_remove_task (s : AppState) (cp : Project) (newTask : Task) :
  currentProject s = Some cp ->
  (forall p, In p (projects s) -> project_id p = project_id cp ->
             ~ In (id newTask) (map id (project_tasks p))) ->
  handleRemoveTask (handleAddTask s (ResponseOk newTask)) (id newTask) (ResponseOk tt)
  = s.
Proof.
  intros Hcp Hfresh.
  unfold handleAddTask. rewrite Hcp.
  unfold handleRemoveTask.
  rewrite (currentProject_updateTasksOf s cp _ Hcp).
  cbn [setProjects projects].
  match goal with
  | |- setProjects _ ?ps = _ => assert (Hps : ps = projects s)
  end.
  { unfold updateTasksOf. rewrite map_map.
    rewrite <- (map_id (projects s)) at 2.
    apply map_ext_in. intros p Hp. cbv beta.
    change (project_id (withTasks cp (project_tasks cp ++ [newTask])))
      with (project_id cp).
    destruct (String.eqb (project_id p) (project_id cp)) eqn:E.
    - change (project_id (withTasks p (project_tasks p ++ [newTask])))
        with (project_id p).
      rewrite E.
      change (withTasks (withTasks p (project_tasks p ++ [newTask]))
                (filter (fun t => negb (String.eqb (id t) (id newTask)))
                        (project_tasks p ++ [newTask])) = p).
      rewrite filter_app. simpl filter at 2. rewrite String.eqb_refl.
      cbn [negb]. rewrite app_nil_r, forallb_filter_id.
      + now destruct p.
      + apply forallb_forall. intros t Ht.
        apply negb_true_iff, String.eqb_neq. intros Heq.
        apply String.eqb_eq in E.
        apply (Hfresh p Hp E). rewrite <- Heq. now apply in_map.
    - now rewrite E. }
  rewrite Hps. apply setProjects_same.
Qed.

Lemma add_then_remove_task_witness :
  currentProject
    (mkAppState [mkProject "p1" "Thesis" None [mkTask "t1" "Outline" 2 true]]
                (Some "p1") false None)
  = Some (mkProject "p1" "Thesis" None [mkTask "t1" "Outline" 2 true])
  /\ handleRemoveTask
       (handleAddTask
          (mkAppState [mkProject "p1" "Thesis" None [mkTask "t1" "Outline" 2 true]]
                      (Some "p1") false None)
          (ResponseOk (mkTask "t2" "Draft" 5 false)))
       "t2" (ResponseOk tt)
     = mkAppState [mkProject "p1" "Thesis" None [mkTask "t1" "Outline" 2 true]]
                  (Some "p1") false None.
Proof.
  split; [reflexivity|].
  refine (add_then_remove_task
            (mkAppState [mkProject "p1" "Thesis" None [mkTask "t1" "Outline" 2 true]]
                        (Some "p1") false None)
            _ (mkTask "t2" "Draft" 5 false) eq_refl _).
  intros p [<- | []] _ [H | []]. discriminate H.
Defined.

(** ** The error message *)

(** No handler clears the error message: once one is shown it stays until
    a load of the projects succeeds. *)
Theorem error_message_stays (s : AppState) :
  error s <> None ->
  (forall r, error (handleAddProject s r) <> None)
  /\ (forall projectId r, error (handleDeleteProject s projectId r) <> None)
  /\ (forall projectId, error (handleSelectProject s projectId) <> None)
  /\ (forall r, error (handleAddTask s r) <> None)
  /\ (forall taskId r, error (handleToggleTask s taskId r) <> None)
  /\ (forall taskId r, error (handleRemoveTask s taskId r) <> None)
  /\ (forall data, error (loadProjects s (ResponseOk data)) = None).
Proof.
  intros Herr.
  repeat split; intros;
    unfold handleAddProject, handleDeleteProject, handleSelectProject,
      handleAddTask, handleToggleTask, handleRemoveTask, loadProjects;
    try (destruct (currentProject s); [|assumption]);
    try match goal with
        | |- context [match ?r with ResponseOk _ => _ | _ => _ end] => destruct r
        end;
    try match goal with
        | |- context [if ?b then _ else _] => destruct b
        end;
    try match goal with
        | |- context [match ?l with [] => _ | _ :: _ => _ end] => destruct l
        end;
    cbn [error setError setProjects setCurrentProjectId setLoading];
    first [assumption | discriminate | reflexivity].
Qed.

Lemma error_message_stays_witness :
  error (mkAppState [] None false (Some "Failed to create project")) <> None
  /\ error (handleAddProject
              (mkAppState [] None false (Some "Failed to create project"))
              (ResponseOk (mkProject "p1" "Thesis" None [])))
     <> None.
Proof.
  assert (H : error (mkAppState [] None false (Some "Failed to create project")) <> None)
    by discriminate.
  split; [exact H|].
  exact (proj1 (error_message_stays _ H) (ResponseOk (mkProject "p1" "Thesis" None []))).
Defined.

(** ** What the render shows without a selection *)

Lemma color_not_placeholder (g : number) : getGuiltMeterColor g <> "#e5e7eb".
Proof.
  unfold getGuiltMeterColor.
  repeat match goal with
         | |- context [if ?b then _ else _] => destruct b
         end; discriminate.
Qed.

Lemma message_not_empty (g : number) (r : Q) :
  validRandom r -> getMotivationalMessage g r <> Returns "".
Proof.
  intros Hr.
  destruct (find (inRange g) motivationalMessages) as [range|] eqn:Hfind.
  - destruct (selected_message g r range Hr Hfind) as [s [Hs Hin]].
    rewrite Hs. intros [= ->].
    apply find_some in Hfind. destruct Hfind as [Hrange _].
    unfold motivationalMessages in Hrange.
    repeat (destruct Hrange as [<- | Hrange];
            [repeat (destruct Hin as [Hin | Hin]; [discriminate Hin|]);
             destruct Hin |]).
    destruct Hrange.
  - rewrite (fallback_message g r Hfind). discriminate.
Qed.

(** The grey placeholder colour ['#e5e7eb'] and the empty message are what
    the render computes exactly when no project of the list is selected:
    with a project selected the colour is never the placeholder and the
    message is never empty. *)
Theorem placeholders_iff_no_selection (s : AppState) (r : Q) :
  validRandom r ->
  (guiltMeterColor s = "#e5e7eb" <-> currentProject s = None)
  /\ (motivationalMessage s r = Returns "" <-> currentProject s = None).
Proof.
  intros Hr. unfold guiltMeterColor, motivationalMessage, progressState.
  destruct (currentProject s) as [cp|]; split; split;
    try reflexivity; try discriminate.
  - intros H. now apply color_not_placeholder in H.
  - intros H. now apply (message_not_empty _ r Hr) in H.
Qed.

Lemma placeholders_iff_no_selection_witness :
  validRandom (1 # 4)
  /\ (guiltMeterColor (mkAppState [mkProject "p1" "Thesis" None []] (Some "p9") false None)
      = "#e5e7eb"
      <-> currentProject
            (mkAppState [mkProject "p1" "Thesis" None []] (Some "p9") false None)
          = None).
Proof.
  assert (Hr : validRandom (1 # 4)) by (unfold validRandom; lra).
  split; [exact Hr|].
  exact (proj1 (placeholders_iff_no_selection
                  (mkAppState [mkProject "p1" "Thesis" None []] (Some "p9") false None)
                  (1 # 4) Hr)).
Defined.

(** * The sidebar: when a project counts as complete *)

Lemma Qsum_positive (l : list Q) :
  l <> [] -> (forall x, In x l -> 0 < x) -> 0 < Qsum l.
Proof.
  induction l as [|x l IH]; intros Hne Hpos; [congruence|].
  simpl. assert (Hx : 0 < x) by (apply Hpos; now left).
  destruct l as [|y l].
  - simpl. lra.
  - assert (0 < Qsum (y :: l)).
    { apply IH; [discriminate|]. intros z Hz. apply Hpos. now right. }
    lra.
Qed.

Lemma filter_none (A : Type) (f : A -> bool) (l : list A) :
  existsb f l = false -> filter f l = [].
Proof.
  induction l as [|a l IH]; simpl; [reflexivity|].
  destruct (f a); simpl; [discriminate | exact IH].
Qed.

(** The sidebar marks a project as complete when the rounded progress is
    100 and it has a task ([calculateProgress] being the calculator as
    modelled above).  A project without tasks is never marked; a project
    whose tasks are all completed, with positive weights, is; a marked
    project has a completed task; and a marked project can still have an
    open task, the percentage being rounded. *)
Theorem completion_mark :
  (forall p, project_tasks p = [] -> isComplete p = false)
  /\ (forall p,
        project_tasks p <> [] ->
        (forall t, In t (project_tasks p) -> completed t = true /\ 0 < weight t) ->
        isComplete p = true)
  /\ (forall p,
        isComplete p = true ->
        exists t, In t (project_tasks p) /\ completed t = true)
  /\ (exists p t,
        isComplete p = true /\ In t (project_tasks p) /\ completed t = false).
Proof.
  split; [|split; [|split]].
  - intros p Hp. unfold isComplete. rewrite Hp. reflexivity.
  - intros p Hne Hall. unfold isComplete.
    apply andb_true_iff. split.
    + apply Z.eqb_eq. unfold calculateProgress. cbn [progressPercentage].
      assert (Hdone : filter completed (project_tasks p) = project_tasks p).
      { apply forallb_filter_id, forallb_forall. intros t Ht. now apply Hall. }
      assert (Hpos : 0 < sumWeight (project_tasks p)).
      { rewrite sumWeight_Qsum. apply Qsum_positive.
        - destruct (project_tasks p); [congruence | discriminate].
        - intros x Hx. apply in_map_iff in Hx. destruct Hx as [t [<- Ht]].
          now apply Hall. }
      rewrite Hdone.
      replace ((Z.of_nat (List.length (project_tasks p)) =? 0)%Z) with false
        by (symmetry; apply Z.eqb_neq; destruct (project_tasks p);
            [congruence | simpl; lia]).
      replace (Qeq_bool (sumWeight (project_tasks p)) 0) with false
        by (symmetry; apply not_true_iff_false; rewrite Qeq_bool_iff; lra).
      cbn [orb]. unfold Math_round.
      assert (Hfull : 100 * sumWeight (project_tasks p) / sumWeight (project_tasks p)
                      + (1 # 2) == 100 + (1 # 2)) by (field; lra).
      rewrite Hfull. reflexivity.
    + apply Nat.ltb_lt. destruct (project_tasks p); [congruence | simpl; lia].
  - intros p Hp. unfold isComplete in Hp. apply andb_true_iff in Hp.
    destruct Hp as [Hp _]. apply Z.eqb_eq in Hp.
    destruct (existsb completed (project_tasks p)) eqn:Hex.
    + apply existsb_exists in Hex. exact Hex.
    + exfalso. unfold calculateProgress in Hp. cbn [progressPercentage] in Hp.
      rewrite (filter_none _ _ _ Hex) in Hp.
      destruct ((Z.of_nat (List.length (project_tasks p)) =? 0)%Z
                || Qeq_bool (sumWeight (project_tasks p)) 0); [discriminate|].
      unfold Math_round in Hp.
      assert (Hz : 100 * sumWeight [] / sumWeight (project_tasks p) + (1 # 2)
                   == 1 # 2).
      { unfold sumWeight at 1. simpl. unfold Qdiv. ring. }
      rewrite Hz in Hp. discriminate.
  - exists (mkProject "" "" None [task 999 true; task 1 false]), (task 1 false).
    split; [reflexivity | split; [right; now left | reflexivity]].
Qed.

Lemma completion_mark_witness :
  project_tasks (mkProject "p1" "Thesis" None [task 2 true; task 5 true]) <> []
  /\ (forall t,
        In t (project_tasks (mkProject "p1" "Thesis" None [task 2 true; task 5 true])) ->
        completed t = true /\ 0 < weight t)
  /\ isComplete (mkProject "p1" "Thesis" None [task 2 true; task 5 true]) = true.
Proof.
  assert (Hne : project_tasks (mkProject "p1" "Thesis" None [task 2 true; task 5 true])
                <> []) by discriminate.
  assert (Hall : forall t,
             In t (project_tasks (mkProject "p1" "Thesis" None
                                    [task 2 true; task 5 true])) ->
             completed t = true /\ 0 < weight t).
  { intros t [<- | [<- | []]]; split; reflexivity. }
  split; [exact Hne | split; [exact Hall|]].
  exact (proj1 (proj2 completion_mark) _ Hne Hall).
Defined.

(** * The API address *)

Lemma replaceTrailingSlash_cons (c : ascii) (rest : string) :
  rest <> "" ->
  replaceTrailingSlash (String c rest) = String c (replaceTrailingSlash rest).
Proof. destruct rest; [congruence | reflexivity]. Qed.

Lemma replaceTrailingSlash_slash (u : string) :
  replaceTrailingSlash (u ++ "/") = u.
Proof.
  induction u as [|c u IH]; [reflexivity|].
  change (String c u ++ "/") with (String c (u ++ "/")).
  rewrite replaceTrailingSlash_cons, IH; [reflexivity|].
  destruct u; discriminate.
Qed.

Lemma replaceTrailingSlash_none (u : string) :
  (forall v, u <> v ++ "/") -> replaceTrailingSlash u = u.
Proof.
  induction u as [|c u IH]; intros Hno; [reflexivity|].
  destruct u as [|d u].
  - simpl. destruct (Ascii.eqb c "/") eqn:E; [|reflexivity].
    apply Ascii.eqb_eq in E. subst c. exfalso. now apply (Hno "").
  - rewrite replaceTrailingSlash_cons by discriminate.
    rewrite IH; [reflexivity|].
    intros v Hv. apply (Hno (String c v)). simpl. now rewrite Hv.
Qed.

(** The configured address may end with a slash or not: one final slash is
    dropped before the path is appended, so [apiUrl] gives the same address
    either way; without a configured address the path is used as it is. *)
Theorem api_url_ignores_final_slash (u path : string) :
  apiUrl (Some (u ++ "/")) path = u ++ path
  /\ ((forall v, u <> v ++ "/") -> apiUrl (Some u) path = u ++ path)
  /\ apiUrl None path = path
  /\ apiUrl (Some "") path = path.
Proof.
  unfold apiUrl, apiBase. split; [|split; [|split; reflexivity]].
  - replace (String.eqb (u ++ "/") "") with false
      by (symmetry; apply String.eqb_neq; destruct u; discriminate).
    now rewrite replaceTrailingSlash_slash.
  - intros Hno. destruct (String.eqb u "") eqn:E.
    + apply String.eqb_eq in E. now subst u.
    + now rewrite replaceTrailingSlash_none.
Qed.

Lemma api_url_ignores_final_slash_witness :
  (forall v, "http://localhost:8000" <> v ++ "/")
  /\ apiUrl (Some "http://localhost:8000") "/api/auth/me"
     = "http://localhost:8000/api/auth/me"
  /\ apiUrl (Some "http://localhost:8000/") "/api/auth/me"
     = "http://localhost:8000/api/auth/me".
Proof.
  assert (H : forall v, "http://localhost:8000" <> v ++ "/").
  { intros v Hv.
    assert (E : replaceTrailingSlash "http://localhost:8000" = v)
      by (rewrite Hv; apply replaceTrailingSlash_slash).
    subst v. discriminate Hv. }
  split; [exact H | split].
  - exact (proj1 (proj2 (api_url_ignores_final_slash
                           "http://localhost:8000" "/api/auth/me")) H).
  - exact (proj1 (api_url_ignores_final_slash "http://localhost:8000" "/api/auth/me")).
Defined.

(** * The session *)

(** The token of the provider and the [token] item of [localStorage] agree
    when the provider starts, and every operation keeps them equal: loading
    the user, logging in, signing up and logging out, whatever the server
    answers. *)
Theorem token_matches_storage :
  (forall stored, tokenStored (initialAuth stored))
  /\ (forall a, tokenStored a ->
        (forall r, tokenStored (loadUser a r))
        /\ (forall r, tokenStored (fst (login a r)))
        /\ (forall r, tokenStored (fst (signup a r)))
        /\ tokenStored (logout a)).
Proof.
  split; [reflexivity|].
  intros a Ha. unfold tokenStored in *. repeat split.
  - intros r. unfold loadUser.
    destruct (storedToken a) as [saved|] eqn:Hs; [|now rewrite <- Hs in Ha].
    destruct (String.eqb saved ""); [simpl; congruence|].
    destruct r; simpl; congruence.
  - intros [data | [m | d] | e]; simpl; [reflexivity | exact Ha | exact Ha | exact Ha].
  - intros [data | [m | d] | e]; simpl; [reflexivity | exact Ha | exact Ha | exact Ha].
Qed.

Lemma token_matches_storage_witness :
  tokenStored (initialAuth (Some "abc"))
  /\ tokenStored (loadUser (initialAuth (Some "abc")) (ResponseNotOk (JsonBody None))).
Proof.
  assert (H : tokenStored (initialAuth (Some "abc"))) by reflexivity.
  split; [exact H|].
  exact (proj1 (proj2 token_matches_storage _ H) (ResponseNotOk (JsonBody None))).
Defined.

(** When the provider starts and loads the user, it always ends with
    [isLoading] off; the user is authenticated exactly when a non-empty
    token was stored and the server accepted it; a stored token the server
    refuses, or whose request throws, is removed from the state and from
    [localStorage]. *)
Theorem session_restore (stored : option string) (r : FetchResult User) :
  let a := loadUser (initialAuth stored) r in
  isLoading a = false
  /\ (isAuthenticated a = true
      <-> exists t u, stored = Some t /\ t <> "" /\ r = ResponseOk u)
  /\ (forall t, stored = Some t -> t <> "" -> notOk r ->
        token a = None /\ storedToken a = None).
Proof.
  intros a. unfold a, loadUser, initialAuth. cbn [storedToken].
  split; [reflexivity | split].
  - destruct stored as [t|]; cbn.
    + destruct (String.eqb t "") eqn:E; cbn.
      * apply String.eqb_eq in E. split; [discriminate|].
        intros [t' [u [[= <-] [Hne _]]]]. congruence.
      * apply String.eqb_neq in E.
        destruct r as [u | d | e]; cbn; split; try discriminate.
        -- intros _. exists t, u. auto.
        -- reflexivity.
        -- intros [t' [u [_ [_ H]]]]. discriminate H.
        -- intros [t' [u [_ [_ H]]]]. discriminate H.
    + split; [discriminate|]. intros [t [u [H _]]]. discriminate H.
  - intros t -> Hne Hr.
    replace (String.eqb t "") with false by (symmetry; now apply String.eqb_neq).
    destruct r; [destruct Hr | |]; split; reflexivity.
Qed.

Lemma session_restore_witness :
  Some "abc" = Some "abc" /\ "abc" <> "" /\ notOk (Rejected (A := User) NotAnError)
  /\ token (loadUser (initialAuth (Some "abc")) (Rejected NotAnError)) = None
  /\ storedToken (loadUser (initialAuth (Some "abc")) (Rejected NotAnError)) = None.
Proof.
  assert (Hne : "abc" <> "") by discriminate.
  split; [reflexivity | split; [exact Hne | split; [exact I|]]].
  exact (proj2 (proj2 (session_restore (Some "abc") (Rejected NotAnError)))
               "abc" eq_refl Hne I).
Defined.

(** A session that ended is not restored: after a stored token was refused
    (or its request threw), and after a logout, loading the user again
    authenticates nobody, whatever the server would answer. *)
Theorem ended_session_stays_ended :
  (forall stored r1 r2,
      notOk r1 ->
      isAuthenticated (loadUser (loadUser (initialAuth stored) r1) r2) = false)
  /\ (forall a r,
        isAuthenticated (loadUser (logout a) r) = false
        /\ token (loadUser (logout a) r) = None).
Proof.
  split.
  - intros stored r1 r2 Hr1. unfold loadUser, initialAuth. cbn [storedToken].
    destruct stored as [t|]; [|reflexivity].
    destruct (String.eqb t "") eqn:E; cbn; [now rewrite E|].
    destruct r1; [destruct Hr1 | reflexivity | reflexivity].
  - intros a r. split; reflexivity.
Qed.

Lemma ended_session_stays_ended_witness :
  notOk (ResponseNotOk (A := User) (JsonBody None))
  /\ isAuthenticated
       (loadUser (loadUser (initialAuth (Some "abc")) (ResponseNotOk (JsonBody None)))
                 (ResponseOk (mkUser "u1" "a@b.c" "Ada" "2024-01-01")))
     = false.
Proof.
  split; [exact I|].
  exact (proj1 ended_session_stays_ended (Some "abc") (ResponseNotOk (JsonBody None))
               (ResponseOk (mkUser "u1" "a@b.c" "Ada" "2024-01-01")) I).
Defined.

(** * The login form *)

(** Submitting the form always ends with [loading] off and keeps the mode.
    When the server accepts, no error is shown and the user is
    authenticated with the token of the answer, in the state and in
    [localStorage].  When it refuses, the session is left as it was and the
    form shows: the [detail] of the body if that is a string; 'Login
    failed' or 'Signup failed', by the mode of the form, if the body is not
    [null] and has no string [detail]; the message of the engine's
    [TypeError] if the body is [null].  When the request throws, the
    session is left as it was and the form shows the message of the
    error, or 'An error occurred' for a value that is not an [Error]. *)
Theorem submit_outcome (l : LoginState) (a : AuthState) (r : FetchResult AuthData) :
  login_loading (fst (handleSubmit l a r)) = false
  /\ isSignup (fst (handleSubmit l a r)) = isSignup l
  /\ (forall data, r = ResponseOk data ->
        login_error (fst (handleSubmit l a r)) = ""
        /\ isAuthenticated (snd (handleSubmit l a r)) = true
        /\ token (snd (handleSubmit l a r)) = Some (access_token data)
        /\ storedToken (snd (handleSubmit l a r)) = Some (access_token data))
  /\ (forall d, r = ResponseNotOk (JsonBody (Some d)) ->
        login_error (fst (handleSubmit l a r)) = d
        /\ snd (handleSubmit l a r) = a)
  /\ (r = ResponseNotOk (JsonBody None) ->
        login_error (fst (handleSubmit l a r))
        = (if isSignup l then "Signup failed" else "Login failed")
        /\ snd (handleSubmit l a r) = a)
  /\ (forall m, r = ResponseNotOk (NullBody m) ->
        login_error (fst (handleSubmit l a r)) = m
        /\ snd (handleSubmit l a r) = a)
  /\ (forall e, r = Rejected e ->
        login_error (fst (handleSubmit l a r)) = messageOf "An error occurred" e
        /\ snd (handleSubmit l a r) = a).
Proof.
  unfold handleSubmit, login, signup.
  repeat split; try (intros; subst r); destruct (isSignup l);
    try (destruct r as [data | [m | d] | e]); reflexivity.
Qed.

Lemma submit_outcome_witness :
  ResponseNotOk (A := AuthData) (JsonBody (Some "Incorrect email or password"))
  = ResponseNotOk (JsonBody (Some "Incorrect email or password"))
  /\ login_error
       (fst (handleSubmit (mkLoginState false "" false) (initialAuth None)
               (ResponseNotOk (JsonBody (Some "Incorrect email or password")))))
     = "Incorrect email or password"
  /\ snd (handleSubmit (mkLoginState false "" false) (initialAuth None)
            (ResponseNotOk (JsonBody (Some "Incorrect email or password"))))
     = initialAuth None
  /\ ResponseNotOk (A := AuthData) (NullBody "Cannot read properties of null")
     = ResponseNotOk (NullBody "Cannot read properties of null")
  /\ login_error
       (fst (handleSubmit (mkLoginState true "" false) (initialAuth None)
               (ResponseNotOk (NullBody "Cannot read properties of null"))))
     = "Cannot read properties of null".
Proof.
  destruct (submit_outcome (mkLoginState false "" false) (initialAuth None)
              (ResponseNotOk (JsonBody (Some "Incorrect email or password"))))
    as [_ [_ [_ [Hdetail _]]]].
  destruct (submit_outcome (mkLoginState true "" false) (initialAuth None)
              (ResponseNotOk (NullBody "Cannot read properties of null")))
    as [_ [_ [_ [_ [_ [Hnull _]]]]]].
  destruct (Hdetail "Incorrect email or password" eq_refl) as [Hshown Hsame].
  destruct (Hnull "Cannot read properties of null" eq_refl) as [Hthrown _].
  split; [reflexivity | split; [exact Hshown | split; [exact Hsame | split;
    [reflexivity | exact Hthrown]]]].
Defined.
